(** * go-openai-example: the function-calling conversation orchestrator

    A shallow embedding of [main.go]: the two tool handlers [geocode] and
    [weather], the Model Gateway [chat], the Dispatcher [invokeFunction],
    the Orchestrator [converse], the entry point [query] and the process
    [main].

    Go strings are byte sequences and are modelled as [string]; a [[]byte]
    is a nilable list of bytes; an [error] is a nilable value identified
    by the text of its [Error()] method.  Everything the program does to
    the outside world (the chat backend, HTTP, standard output) goes
    through an explicit state: the state of the outside world, which the
    external calls read and change, and the chronological trace of the
    calls the program has made. *)

From Stdlib Require Import Strings.String Strings.Ascii Strings.Byte.
From Stdlib Require Import Lists.List Arith.Arith micromega.Lia.
From Stdlib Require Import Floats.SpecFloat.
From stdpp Require Import base strings gmap list.
From Equations Require Import Equations.

#[local] Set Warnings "-register-all".
Local Open Scope string_scope.
Local Open Scope list_scope.

(* ===================================================================== *)
(** ** Go values *)
(* ===================================================================== *)

(** The [error] interface.  Every error of this program is built by
    [errors.New] or [fmt.Errorf], or comes from a library; the program
    only ever formats it with [%v], which prints [Error()]. *)
Record error := errors_New { Error : string }.

(** A [[]byte]: [None] is the nil slice. *)
Definition bytes := option (list byte).

(** The conversion [string(b)] of a byte slice; a nil slice gives [""]. *)
Definition string_of_bytes (b : bytes) : string :=
  match b with
  | None => ""
  | Some l => string_of_list_byte l
  end.

(** What an [interface{}] holds after [json.Unmarshal] into
    [map[string]interface{}]: nil, bool, float64, string,
    [[]interface{}] or [map[string]interface{}]. *)
Inductive JValue :=
| JNull
| JBool (b : bool)
| JNumber (f : spec_float)
| JString (s : string)
| JArray (l : list JValue)
| JObject (m : list (string * JValue)).

(** The dynamic type of an interface value, as the run time names it;
    [None] is the nil interface (also what a map gives for a missing key). *)
Definition dynamic_type (v : option JValue) : option string :=
  match v with
  | None | Some JNull => None
  | Some (JBool _) => Some "bool"
  | Some (JNumber _) => Some "float64"
  | Some (JString _) => Some "string"
  | Some (JArray _) => Some "[]interface {}"
  | Some (JObject _) => Some "map[string]interface {}"
  end.

(** Run-time panics the program can raise itself. *)
Inductive panic :=
| TypeAssertionError (concrete : option string) (asserted : string)
    (* interface conversion: interface {} is <concrete>, not <asserted> *)
| IndexOutOfRange (index length : nat)
    (* index out of range [<index>] with length <length> *).

(* ===================================================================== *)
(** ** fmt.Sprintf, for string operands *)
(* ===================================================================== *)

(** Operands are given by the text [%s] and [%v] print for them: a string
    is itself, an error is its [Error()].  Verbs other than [s] and [v]
    are not verbs of a string and print as bad verbs. *)
Definition is_string_verb (c : ascii) : bool :=
  Ascii.eqb c "s" || Ascii.eqb c "v".

Fixpoint extra_operands (args : list string) : string :=
  match args with
  | [] => ""
  | [a] => "string=" ++ a
  | a :: rest => "string=" ++ a ++ ", " ++ extra_operands rest
  end.

Fixpoint Sprintf (format : string) (args : list string) : string :=
  match format with
  | EmptyString =>
      match args with
      | [] => ""
      | _ => "%!(EXTRA " ++ extra_operands args ++ ")"
      end
  | String c rest =>
      if Ascii.eqb c "%" then
        match rest with
        | EmptyString => "%!(NOVERB)"
        | String v rest' =>
            if Ascii.eqb v "%" then String "%" (Sprintf rest' args)
            else
              match args with
              | [] => "%!" ++ String v "(MISSING)" ++ Sprintf rest' []
              | a :: args' =>
                  if is_string_verb v then a ++ Sprintf rest' args'
                  else "%!" ++ String v ("(string=" ++ a ++ ")")
                         ++ Sprintf rest' args'
              end
        end
      else String c (Sprintf rest args)
  end.

(** [fmt.Errorf(format, err)] with one error operand. *)
Definition fmt_Errorf (format : string) (err : error) : error :=
  errors_New (Sprintf format [Error err]).

(* ===================================================================== *)
(** ** The go-openai data model (the fields the program uses) *)
(* ===================================================================== *)

Record FunctionCall := {
  fcName : string;
  fcArguments : string
}.

Record ChatCompletionMessage := {
  Role : string;
  Content : string;
  Name : string;
  FunctionCallOf : option FunctionCall   (* FunctionCall *FunctionCall *)
}.

Record ChatCompletionChoice := {
  Message : ChatCompletionMessage
}.

Record ChatCompletionResponse := {
  Choices : list ChatCompletionChoice
}.

Record FunctionDefinition := {
  fdName : string;
  fdDescription : string;
  fdParameters : JValue   (* the JSON value of the raw schema text *)
}.

Record ChatCompletionRequest := {
  Model : string;
  Messages : list ChatCompletionMessage;
  Functions : list FunctionDefinition
}.

Definition GPT3Dot5Turbo : string := "gpt-3.5-turbo".
Definition ChatMessageRoleFunction : string := "function".

(* ===================================================================== *)
(** ** Effects: outcomes, events, the state monad *)
(* ===================================================================== *)

(** A Go call either returns or panics. *)
Inductive Outcome (A : Type) :=
| Ret (a : A)
| Panic (p : panic).
Arguments Ret {A} a.
Arguments Panic {A} p.

(** What the program writes to standard output, by its operands. *)
Inductive Output :=
| DebugInvoke (name : string) (args : gmap string JValue)
| DebugChoice (i : nat) (message : ChatCompletionMessage).

(** The calls the program makes to the outside. *)
Inductive Event :=
| EvChat (apiKey : string) (req : ChatCompletionRequest)
| EvHttpGet (url : string)
| EvPrint (o : Output).

Definition is_chat (e : Event) : bool :=
  match e with EvChat _ _ => true | _ => false end.

Definition is_http_get (e : Event) : bool :=
  match e with EvHttpGet _ => true | _ => false end.

(* ===================================================================== *)
(** ** The program *)
(* ===================================================================== *)

(** The outside world and the library calls that reach it.  Each call
    reads the state of the world and leaves a new one, so the same request
    may be answered differently the second time.  The two API keys are
    the package variables [init] sets from the environment. *)
Class Outside := {
  World : Type;
  Body : Type;   (* resp.Body of an *http.Response *)
  http_Get : string -> World -> (Body + error) * World;
  ioutil_ReadAll : Body -> World -> (bytes * option error) * World;
  Body_Close : Body -> World -> World;
  CreateChatCompletion :
    string -> ChatCompletionRequest -> World ->
    (ChatCompletionResponse * option error) * World;
  (* json.Unmarshal(data, &args) into a fresh map[string]interface{}:
     the map as it is left, and the error *)
  json_Unmarshal : list byte -> gmap string JValue * option error;
  openWeatherMapAPIKEY : string;
  openAIAPIKEY : string
}.

Section Program.

Context {outside : Outside}.

Record State := {
  world : World;
  trace : list Event
}.

Definition M (A : Type) : Type := State -> Outcome A * State.

Definition ret {A} (a : A) : M A := fun st => (Ret a, st).

Definition raise {A} (p : panic) : M A := fun st => (Panic p, st).

Definition bind {A B} (m : M A) (k : A -> M B) : M B :=
  fun st =>
    match m st with
    | (Ret a, st') => k a st'
    | (Panic p, st') => (Panic p, st')
    end.

Notation "'let*' x ':=' m 'in' k" := (bind m (fun x => k))
  (at level 10, x name, m at level 100, k at level 200, only parsing).
Notation "'do' m 'then' k" := (bind m (fun _ => k))
  (at level 10, m at level 100, k at level 200, only parsing).

Definition emit (e : Event) : M unit :=
  fun st => (Ret tt, {| world := world st; trace := trace st ++ [e] |}).

(** Run an external call on the world. *)
Definition external {A} (call : World -> A * World) : M A :=
  fun st =>
    let '(a, w) := call (world st) in
    (Ret a, {| world := w; trace := trace st |}).

(** The library calls of the handlers.  [http.Get] gives the body of the
    response or an error; the request is put on the trace. *)
Definition Get (url : string) : M (Body + error) :=
  do emit (EvHttpGet url) then
  external (http_Get url).

Definition ReadAll (body : Body) : M (bytes * option error) :=
  external (ioutil_ReadAll body).

Definition Close (body : Body) : M unit :=
  external (fun w => (tt, Body_Close body w)).

Definition geocode (location : string) : M (bytes * option error) :=
  let url :=
    Sprintf
      "https://geocoding-api.open-meteo.com/v1/search?name=%s&count=1&format=json"
      [location] in
  let* r := Get url in
  match r with
  | inr err => ret (None, Some err)
  | inl body =>
      (* defer resp.Body.Close() *)
      let* out := ReadAll body in
      do Close body then
      ret out
  end.

Definition weather (lat lon : string) : M (bytes * option error) :=
  let url :=
    Sprintf
      "https://api.openweathermap.org/data/2.5/weather?units=metric&lat=$%s&lon=%s&appid=%s"
      [lat; lon; openWeatherMapAPIKEY] in
  let* r := Get url in
  match r with
  | inr err => ret (None, Some err)
  | inl body =>
      (* defer resp.Body.Close() *)
      let* out := ReadAll body in
      do Close body then
      ret out
  end.

(** The two schemas [chat] advertises, as JSON values. *)
Definition paramGeocode : JValue :=
  JObject
    [("type", JString "object");
     ("required", JArray [JString "location"]);
     ("properties",
      JObject
        [("location",
          JObject [("type", JString "string");
                   ("description", JString "The city, e.g. New York")])])].

Definition paramWeather : JValue :=
  JObject
    [("type", JString "object");
     ("required", JArray [JString "latitude"; JString "longitude"]);
     ("properties",
      JObject
        [("latitude",
          JObject [("type", JString "number");
                   ("description", JString "The latitude")]);
         ("longitude",
          JObject [("type", JString "number");
                   ("description", JString "The longitude")])])].

Definition chat_request (messages : list ChatCompletionMessage)
  : ChatCompletionRequest :=
  {| Model := GPT3Dot5Turbo;
     Messages := messages;
     Functions :=
       [ {| fdName := "geocode";
            fdDescription := "Get the latitude and longitude of a location";
            fdParameters := paramGeocode |};
         {| fdName := "weather";
            fdDescription := "Get the current weather in a given location";
            fdParameters := paramWeather |} ] |}.

Definition chat (messages : list ChatCompletionMessage)
  : M (ChatCompletionResponse * option error) :=
  do emit (EvChat openAIAPIKEY (chat_request messages)) then
  external (CreateChatCompletion openAIAPIKEY (chat_request messages)).

(** The unchecked type assertion [v.(string)] on a map entry. *)
Definition assert_string (v : option JValue) : M string :=
  match v with
  | Some (JString s) => ret s
  | _ => raise (TypeAssertionError (dynamic_type v) "string")
  end.

Definition invokeFunction (name argsIn : string) : M (bytes * option error) :=
  let '(args, err) := json_Unmarshal (list_byte_of_string argsIn) in
  do emit (EvPrint (DebugInvoke name args)) then
  match err with
  | Some e => ret (None, Some e)
  | None =>
      if String.eqb name "geocode" then
        let* location := assert_string (args !! "location") in
        geocode location
      else if String.eqb name "weather" then
        let* latitude := assert_string (args !! "latitude") in
        let* longitude := assert_string (args !! "longitude") in
        weather latitude longitude
      else ret (None, None)
  end.

(** [for i, choice := range resp.Choices { fmt.Printf(...) }] *)
Fixpoint print_choices (i : nat) (choices : list ChatCompletionChoice)
  : M unit :=
  match choices with
  | [] => ret tt
  | choice :: rest =>
      do emit (EvPrint (DebugChoice i (Message choice))) then
      print_choices (S i) rest
  end.

(** [resp.Choices[0]], with the bounds check of the run time. *)
Definition first_choice (resp : ChatCompletionResponse)
  : M ChatCompletionChoice :=
  match Choices resp with
  | [] => raise (IndexOutOfRange 0 (length (Choices resp)))
  | choice :: _ => ret choice
  end.

(** The message [converse] appends for a tool result. *)
Definition tool_result (functionCall : FunctionCall) (resp : bytes)
  : ChatCompletionMessage :=
  {| Role := ChatMessageRoleFunction;
     Content := string_of_bytes resp;
     Name := fcName functionCall;
     FunctionCallOf := None |}.

(** [append(append(append([]Message{}, messages...), message), result)] *)
Definition newMessages (messages : list ChatCompletionMessage)
  (message : ChatCompletionMessage) (functionCall : FunctionCall)
  (resp : bytes) : list ChatCompletionMessage :=
  (([] ++ messages) ++ [message]) ++ [tool_result functionCall resp].

(** One pass through the body of [converse], up to the recursive call:
    either the call is over with a result, or it goes on with the
    extended transcript. *)
Inductive Step :=
| Done (answer : string) (err : option error)
| Again (messages : list ChatCompletionMessage).

Definition converse_body (messages : list ChatCompletionMessage) : M Step :=
  if Nat.ltb 13 (length messages) then
    ret (Done "" (Some (errors_New "too in-depth conversation")))
  else
    let* r := chat messages in
    match snd r with
    | Some err => ret (Done "" (Some (fmt_Errorf "failed chat: %v" err)))
    | None =>
        let resp := fst r in
        do print_choices 0 (Choices resp) then
        let* choice := first_choice resp in
        let message := Message choice in
        match FunctionCallOf message with
        | Some functionCall =>
            let* out :=
              invokeFunction (fcName functionCall) (fcArguments functionCall) in
            match snd out with
            | Some err =>
                ret (Done "" (Some (fmt_Errorf "failed invoke function: %v" err)))
            | None =>
                ret (Again (newMessages messages message functionCall (fst out)))
            end
        | None => ret (Done (Content message) None)
        end
    end.

(** Match on a value and keep the equation. *)
Definition inspect {A : Type} (x : A) : {y : A | x = y} := exist _ x eq_refl.

#[local] Unset Equations With Funext.

(** [converse]: the body, run again on the extended transcript for as
    long as it asks to.  The transcript grows by two on every round and
    the body stops above 13, which is what makes the recursion end. *)
Equations? converse (messages : list ChatCompletionMessage) (st : State)
  : Outcome (string * option error) * State
  by wf (14 - length messages) lt :=
converse messages st with inspect (converse_body messages st) := {
  | exist _ (Ret (Done answer err), st') _ => (Ret (answer, err), st');
  | exist _ (Ret (Again messages'), st') Hbody => converse messages' st';
  | exist _ (Panic p, st') _ => (Panic p, st') }.
Proof.
  revert Hbody. unfold converse_body.
  destruct (Nat.ltb_spec 13 (length messages)) as [Hgt | Hle];
    [discriminate |].
  unfold bind.
  destruct (chat messages st) as [[[resp [err |]] | p] st1]; simpl;
    try discriminate.
  destruct (print_choices 0 (Choices resp) st1) as [[[] | p] st2];
    try discriminate.
  destruct (first_choice resp st2) as [[choice | p] st3]; try discriminate.
  destruct (FunctionCallOf (Message choice)) as [functionCall |];
    try discriminate.
  destruct (invokeFunction _ _ st3) as [[[out [err |]] | p] st4]; simpl;
    try discriminate.
  intros H. injection H as <- _.
  unfold newMessages. rewrite !length_app. simpl. lia.
Qed.

Definition query (inquiry : string) : M (string * option error) :=
  converse
    [ {| Role := "system";
         Content := "Only use the functions you have been provided with.";
         Name := "";
         FunctionCallOf := None |};
      {| Role := "system";
         Content := "Only answer in 50 words or less.";
         Name := "";
         FunctionCallOf := None |};
      {| Role := "user";
         Content := inquiry;
         Name := "";
         FunctionCallOf := None |} ].

End Program.

Arguments State : clear implicits.
Arguments M : clear implicits.

(* ===================================================================== *)
(** ** The process *)
(* ===================================================================== *)

(** [strings.Join(elems, sep)] *)
Fixpoint strings_Join (elems : list string) (sep : string) : string :=
  match elems with
  | [] => ""
  | [elem] => elem
  | elem :: rest => elem ++ sep ++ strings_Join rest sep
  end.

(** How the process ends: [main] returns after [fmt.Println(answer)], the
    line it wrote to standard output being kept here; or [log.Fatal] and
    [log.Fatalf] log their message and exit with status 1; or a panic
    nobody recovers ends it. *)
Inductive Exit :=
| Returned (stdout : string)
| Fatal (message : string)
| Crashed (p : panic).

Definition newline : string := String (ascii_of_nat 10) EmptyString.

(** [main], on the arguments of the process, [os.Args]. *)
Definition main {outside : Outside} (Args : list string) (st : State outside)
  : Exit * State outside :=
  let inquiry :=
    if Nat.ltb 1 (length Args) then strings_Join (drop 1 Args) " " else "" in
  if Nat.ltb (String.length inquiry) 2 then (Fatal "Supply some inquiry!", st)
  else
    match query inquiry st with
    | (Ret (answer, Some err), st') =>
        (Fatal (Sprintf "Failed query answer: %v" [Error err]), st')
    | (Ret (answer, None), st') => (Returned (answer ++ newline), st')
    | (Panic p, st') => (Crashed p, st')
    end.

(* ===================================================================== *)
(** ** Vocabulary of the properties *)
(* ===================================================================== *)

(** The state in which the program has printed [o]. *)
Definition printed {outside : Outside} (o : Output) (st : State outside)
  : State outside :=
  {| world := world st; trace := trace st ++ [EvPrint o] |}.

(** The events of the loop over [resp.Choices], from index [i] on. *)
Fixpoint choice_events (i : nat) (choices : list ChatCompletionChoice)
  : list Event :=
  match choices with
  | [] => []
  | choice :: rest =>
      EvPrint (DebugChoice i (Message choice)) :: choice_events (S i) rest
  end.

(** The state in which the program has printed the choices of [resp]. *)
Definition choices_printed {outside : Outside} (resp : ChatCompletionResponse)
  (st : State outside) : State outside :=
  {| world := world st;
     trace := trace st ++ choice_events 0 (Choices resp) |}.

(** A registered tool, called with the fields its handler takes, each of
    the type the handler asserts. *)
Inductive handler_call {outside : Outside}
  : string -> gmap string JValue -> M outside (bytes * option error) -> Prop :=
| call_geocode args location :
    args !! "location" = Some (JString location) ->
    handler_call "geocode" args (geocode location)
| call_weather args latitude longitude :
    args !! "latitude" = Some (JString latitude) ->
    args !! "longitude" = Some (JString longitude) ->
    handler_call "weather" args (weather latitude longitude).

(** Transcript tails made of tool rounds: an assistant message that asks
    for a tool, then the result of that tool. *)
Inductive tool_rounds : list ChatCompletionMessage -> Prop :=
| rounds_nil : tool_rounds []
| rounds_snoc l message functionCall out :
    tool_rounds l ->
    FunctionCallOf message = Some functionCall ->
    tool_rounds (l ++ [message; tool_result functionCall out]).

(** The fields [invokeFunction] asserts to be strings, in the order in
    which it does. *)
Definition asserted_fields (name : string) : list string :=
  if String.eqb name "geocode" then ["location"]
  else if String.eqb name "weather" then ["latitude"; "longitude"]
  else [].

Definition is_JString (v : option JValue) : bool :=
  match v with
  | Some (JString _) => true
  | _ => false
  end.

(** The first asserted field that is not a string, if there is one. *)
Definition first_mistyped (name : string) (args : gmap string JValue)
  : option string :=
  List.find (fun field => negb (is_JString (args !! field)))
    (asserted_fields name).

(** The numbers of requests to the backend and of HTTP GETs among events. *)
Definition chats (evs : list Event) : nat := length (List.filter is_chat evs).
Definition gets (evs : list Event) : nat :=
  length (List.filter is_http_get evs).

(* ===================================================================== *)
(** ** A scripted outside, to run the program on *)
(* ===================================================================== *)

Module Stub.

(** The double quote character. *)
Definition dq : string := String (ascii_of_nat 34) EmptyString.

(** [{"location":"Paris"}] *)
Definition args_geocode : string :=
  "{" ++ dq ++ "location" ++ dq ++ ":" ++ dq ++ "Paris" ++ dq ++ "}".

(** [{"latitude":48.85,"longitude":2.35}], as the advertised schema of
    [weather] asks for it. *)
Definition args_weather_numbers : string :=
  "{" ++ dq ++ "latitude" ++ dq ++ ":48.85," ++ dq ++ "longitude" ++ dq
      ++ ":2.35}".

(** [{"latitude":"48.85","longitude":"2.35"}] *)
Definition args_weather_strings : string :=
  "{" ++ dq ++ "latitude" ++ dq ++ ":" ++ dq ++ "48.85" ++ dq ++ ","
      ++ dq ++ "longitude" ++ dq ++ ":" ++ dq ++ "2.35" ++ dq ++ "}".

(** The float64 values of 48.85 and 2.35. *)
Definition f48_85 : spec_float :=
  S754_finite false 6875026306157773%positive (-47)%Z.
Definition f2_35 : spec_float :=
  S754_finite false 5291729562160333%positive (-51)%Z.

(** What [encoding/json] gives for the payloads above; every other
    payload is answered with the error of the empty input. *)
Definition decode (data : list byte) : gmap string JValue * option error :=
  let payload := string_of_list_byte data in
  if String.eqb payload args_geocode then
    ({[ "location" := JString "Paris" ]}, None)
  else if String.eqb payload args_weather_numbers then
    (<[ "latitude" := JNumber f48_85 ]> {[ "longitude" := JNumber f2_35 ]},
     None)
  else if String.eqb payload args_weather_strings then
    (<[ "latitude" := JString "48.85" ]> {[ "longitude" := JString "2.35" ]},
     None)
  else (∅, Some (errors_New "unexpected end of JSON input")).

(** The world is the script of the replies the backend still has to give;
    a backend with nothing left to say fails.  Every HTTP GET succeeds and
    its body names the URL that was asked for. *)
Definition outside : Outside :=
  {| World := list (ChatCompletionResponse * option error);
     Body := list byte;
     http_Get := fun url w =>
       (inl (list_byte_of_string ("body of " ++ url)), w);
     ioutil_ReadAll := fun body w => ((Some body, None), w);
     Body_Close := fun _ w => w;
     CreateChatCompletion := fun _ _ w =>
       match w with
       | [] => (({| Choices := [] |}, Some (errors_New "EOF")), [])
       | reply :: w' => (reply, w')
       end;
     json_Unmarshal := decode;
     openWeatherMapAPIKEY := "owm-key";
     openAIAPIKEY := "sk-test" |}.

Definition start (script : list (ChatCompletionResponse * option error))
  : State outside :=
  @Build_State outside script [].

Definition user (text : string) : ChatCompletionMessage :=
  {| Role := "user"; Content := text; Name := ""; FunctionCallOf := None |}.

Definition system (text : string) : ChatCompletionMessage :=
  {| Role := "system"; Content := text; Name := ""; FunctionCallOf := None |}.

(** An assistant message that asks for a tool. *)
Definition asks (name arguments : string) : ChatCompletionMessage :=
  {| Role := "assistant"; Content := ""; Name := "";
     FunctionCallOf := Some {| fcName := name; fcArguments := arguments |} |}.

(** An assistant message that answers. *)
Definition answers (text : string) : ChatCompletionMessage :=
  {| Role := "assistant"; Content := text; Name := "";
     FunctionCallOf := None |}.

(** A successful reply with one choice. *)
Definition reply (message : ChatCompletionMessage)
  : ChatCompletionResponse * option error :=
  ({| Choices := [ {| Message := message |} ] |}, None).

(** The same outside without a network: every HTTP GET fails. *)
Definition offline : Outside :=
  {| World := list (ChatCompletionResponse * option error);
     Body := list byte;
     http_Get := fun _ w => (inr (errors_New "no route to host"), w);
     ioutil_ReadAll := fun body w => ((Some body, None), w);
     Body_Close := fun _ w => w;
     CreateChatCompletion := fun _ _ w =>
       match w with
       | [] => (({| Choices := [] |}, Some (errors_New "EOF")), [])
       | reply :: w' => (reply, w')
       end;
     json_Unmarshal := decode;
     openWeatherMapAPIKEY := "owm-key";
     openAIAPIKEY := "sk-test" |}.

End Stub.

(* ===================================================================== *)
(** ** Properties *)
(* ===================================================================== *)

Section Properties.

Context {outside : Outside}.

Implicit Types (st : State outside) (messages : list ChatCompletionMessage).

(** *** Strings *)

Lemma append_empty_r (s : string) : (s ++ "")%string = s.
Proof.
  induction s as [| c s IH]; [reflexivity |].
  change (String c (s ++ "")%string = String c s). now rewrite IH.
Qed.

(** *** The monad *)

Lemma bind_Ret {A B} (m : M outside A) (k : A -> M outside B) st a st' :
  m st = (Ret a, st') -> bind m k st = k a st'.
Proof. intros H. unfold bind. now rewrite H. Qed.

Lemma bind_Panic {A B} (m : M outside A) (k : A -> M outside B) st p st' :
  m st = (Panic p, st') -> bind m k st = (Panic p, st').
Proof. intros H. unfold bind. now rewrite H. Qed.

Lemma emit_run e st :
  emit e st = (Ret tt, {| world := world st; trace := trace st ++ [e] |}).
Proof. reflexivity. Qed.

(** *** The Dispatcher *)

Lemma invokeFunction_decoded name argsIn args err st :
  json_Unmarshal (list_byte_of_string argsIn) = (args, err) ->
  invokeFunction name argsIn st
  = match err with
    | Some e => (Ret (None, Some e), printed (DebugInvoke name args) st)
    | None =>
        (if String.eqb name "geocode" then
           bind (assert_string (args !! "location")) geocode
         else if String.eqb name "weather" then
           bind (assert_string (args !! "latitude")) (fun latitude =>
           bind (assert_string (args !! "longitude")) (fun longitude =>
           weather latitude longitude))
         else ret (None, None))
          (printed (DebugInvoke name args) st)
    end.
Proof.
  intros Hdec. unfold invokeFunction. rewrite Hdec.
  destruct err; reflexivity.
Qed.

(** C7.  A payload that [json.Unmarshal] rejects: whatever the tool name,
    [invokeFunction] returns a nil result with the decode error itself,
    having done nothing but print its debug line, so that no handler has
    run and no HTTP request was made. *)
Theorem invokeFunction_decode_error name argsIn args e st :
  json_Unmarshal (list_byte_of_string argsIn) = (args, Some e) ->
  invokeFunction name argsIn st
  = (Ret (None, Some e), printed (DebugInvoke name args) st).
Proof.
  intros Hdec. now rewrite (invokeFunction_decoded _ _ _ _ _ Hdec).
Qed.

(** C2.  A tool name that is neither [geocode] nor [weather], with a
    payload that decodes: [invokeFunction] returns a nil result and a
    nil error, having only printed its debug line. *)
Theorem invokeFunction_unregistered name argsIn args st :
  name <> "geocode" -> name <> "weather" ->
  json_Unmarshal (list_byte_of_string argsIn) = (args, None) ->
  invokeFunction name argsIn st
  = (Ret (None, None), printed (DebugInvoke name args) st).
Proof.
  intros Hg Hw Hdec. rewrite (invokeFunction_decoded _ _ _ _ _ Hdec).
  apply String.eqb_neq in Hg, Hw. now rewrite Hg, Hw.
Qed.

(** C4.  A registered tool called with the fields its handler takes, of
    the types it asserts: [invokeFunction] gives exactly what the handler
    gives (result, error and state alike), run after the debug line. *)
Theorem invokeFunction_registered name argsIn args handler st :
  json_Unmarshal (list_byte_of_string argsIn) = (args, None) ->
  handler_call name args handler ->
  invokeFunction name argsIn st
  = handler (printed (DebugInvoke name args) st).
Proof.
  intros Hdec Hcall. rewrite (invokeFunction_decoded _ _ _ _ _ Hdec).
  destruct Hcall as [args location Hloc | args lat lon Hlat Hlon]; simpl.
  - now rewrite Hloc.
  - now rewrite Hlat, Hlon.
Qed.

(** *** The tool handlers *)

(** Get, read all, close: this always returns, after exactly one HTTP
    GET. *)
Lemma fetch_run url st :
  exists out w,
    bind (Get url) (fun r =>
      match r with
      | inr err => ret (None, Some err)
      | inl body =>
          bind (ReadAll body) (fun out => bind (Close body) (fun _ => ret out))
      end) st
    = (Ret out, {| world := w; trace := trace st ++ [EvHttpGet url] |}).
Proof.
  unfold Get, ReadAll, Close, bind, emit, external, ret; simpl.
  destruct (http_Get url (world st)) as [[body | err] w]; simpl.
  - destruct (ioutil_ReadAll body w) as [out w']; simpl. eauto.
  - eauto.
Qed.

Lemma geocode_url location :
  Sprintf
    "https://geocoding-api.open-meteo.com/v1/search?name=%s&count=1&format=json"
    [location]
  = ("https://geocoding-api.open-meteo.com/v1/search?name="
       ++ location ++ "&count=1&format=json")%string.
Proof. reflexivity. Qed.

Lemma weather_url lat lon :
  Sprintf
    "https://api.openweathermap.org/data/2.5/weather?units=metric&lat=$%s&lon=%s&appid=%s"
    [lat; lon; openWeatherMapAPIKEY]
  = ("https://api.openweathermap.org/data/2.5/weather?units=metric&lat=$"
       ++ lat ++ "&lon=" ++ lon ++ "&appid=" ++ openWeatherMapAPIKEY)%string.
Proof.
  rewrite <- (append_empty_r openWeatherMapAPIKEY) at 2. reflexivity.
Qed.

Lemma geocode_run location st :
  exists out w,
    geocode location st
    = (Ret out,
       {| world := w;
          trace := trace st
            ++ [EvHttpGet
                  ("https://geocoding-api.open-meteo.com/v1/search?name="
                     ++ location ++ "&count=1&format=json")] |}).
Proof.
  unfold geocode. cbv zeta. rewrite geocode_url. apply fetch_run.
Qed.

Lemma weather_run lat lon st :
  exists out w,
    weather lat lon st
    = (Ret out,
       {| world := w;
          trace := trace st
            ++ [EvHttpGet
                  ("https://api.openweathermap.org/data/2.5/weather"
                     ++ "?units=metric&lat=$" ++ lat ++ "&lon=" ++ lon
                     ++ "&appid=" ++ openWeatherMapAPIKEY)] |}).
Proof.
  unfold weather. cbv zeta. rewrite weather_url. apply fetch_run.
Qed.

Lemma assert_string_run (v : option JValue) st :
  assert_string v st
  = match v with
    | Some (JString s) => (Ret s, st)
    | _ => (Panic (TypeAssertionError (dynamic_type v) "string"), st)
    end.
Proof. destruct v as [[] |]; reflexivity. Qed.

(** What a call of the Dispatcher can do: it never talks to the backend,
    and the only panic it can raise is a failed type assertion. *)
Lemma invokeFunction_effects name argsIn st :
  exists evs,
    trace (snd (invokeFunction name argsIn st)) = trace st ++ evs
    /\ Forall (fun e => is_chat e = false) evs
    /\ (forall p, fst (invokeFunction name argsIn st) = Panic p ->
        exists concrete, p = TypeAssertionError concrete "string").
Proof.
  destruct (json_Unmarshal (list_byte_of_string argsIn)) as [args err] eqn:Hdec.
  rewrite (invokeFunction_decoded _ _ _ _ _ Hdec).
  set (st0 := printed (DebugInvoke name args) st).
  assert (Hhandler : forall (handler : M outside (bytes * option error)) url,
    (exists out w,
       handler st0
       = (Ret out,
          {| world := w; trace := trace st0 ++ [EvHttpGet url] |})) ->
    exists evs,
      trace (snd (handler st0)) = trace st ++ evs
      /\ Forall (fun e => is_chat e = false) evs
      /\ (forall p, fst (handler st0) = Panic p ->
          exists concrete, p = TypeAssertionError concrete "string")).
  { intros handler url (out & w & ->).
    exists [EvPrint (DebugInvoke name args); EvHttpGet url]. simpl.
    split; [now rewrite <- app_assoc |].
    split; [repeat constructor | discriminate]. }
  assert (Hstay : forall (o : Outcome (bytes * option error)),
    (forall p, o = Panic p ->
       exists concrete, p = TypeAssertionError concrete "string") ->
    exists evs,
      trace (snd (o, st0)) = trace st ++ evs
      /\ Forall (fun e => is_chat e = false) evs
      /\ (forall p, fst (o, st0) = Panic p ->
          exists concrete, p = TypeAssertionError concrete "string")).
  { intros o Ho. exists [EvPrint (DebugInvoke name args)].
    split; [reflexivity |]. split; [repeat constructor | exact Ho]. }
  destruct err as [e |]; [apply Hstay; discriminate |].
  destruct (String.eqb name "geocode").
  { unfold bind. rewrite assert_string_run.
    destruct (args !! "location") as [[] |];
      try (apply Hstay; intros p [= <-]; eauto).
    eapply Hhandler, geocode_run. }
  destruct (String.eqb name "weather").
  { unfold bind. rewrite !assert_string_run.
    destruct (args !! "latitude") as [[] |];
      try (apply Hstay; intros p [= <-]; eauto).
    rewrite !assert_string_run.
    destruct (args !! "longitude") as [[] |];
      try (apply Hstay; intros p [= <-]; eauto).
    eapply Hhandler, weather_run. }
  apply Hstay. discriminate.
Qed.

(** *** The Model Gateway *)

(** [chat] always returns: it puts its request on the trace and hands
    back what the backend gave. *)
Lemma chat_run messages st :
  exists r w,
    CreateChatCompletion openAIAPIKEY (chat_request messages) (world st)
    = (r, w)
    /\ chat messages st
       = (Ret r,
          {| world := w;
             trace := trace st ++ [EvChat openAIAPIKEY (chat_request messages)]
          |}).
Proof.
  unfold chat, bind, emit, external; simpl.
  destruct (CreateChatCompletion _ _ _) as [r w]. now exists r, w.
Qed.

Lemma chat_trace messages st r st1 :
  chat messages st = (Ret r, st1) ->
  trace st1 = trace st ++ [EvChat openAIAPIKEY (chat_request messages)].
Proof.
  destruct (chat_run messages st) as (r' & w & _ & Hrun).
  rewrite Hrun. intros [= _ <-]. reflexivity.
Qed.

Lemma chat_no_panic messages st p st1 :
  chat messages st <> (Panic p, st1).
Proof.
  destruct (chat_run messages st) as (r' & w & _ & Hrun).
  rewrite Hrun. discriminate.
Qed.

(** *** One pass of the Orchestrator *)

Lemma print_choices_run choices : forall i st,
  print_choices i choices st
  = (Ret tt,
     {| world := world st; trace := trace st ++ choice_events i choices |}).
Proof.
  induction choices as [| choice rest IH]; intros i st; simpl.
  - rewrite app_nil_r. now destruct st.
  - unfold bind. rewrite emit_run, IH. simpl.
    now rewrite <- app_assoc.
Qed.

Lemma converse_body_deep messages st :
  13 < length messages ->
  converse_body messages st
  = (Ret (Done "" (Some (errors_New "too in-depth conversation"))), st).
Proof.
  intros Hlen. unfold converse_body.
  apply Nat.ltb_lt in Hlen. now rewrite Hlen.
Qed.

Lemma converse_body_chat_failed messages st resp err st1 :
  length messages <= 13 ->
  chat messages st = (Ret (resp, Some err), st1) ->
  converse_body messages st
  = (Ret (Done "" (Some (fmt_Errorf "failed chat: %v" err))), st1).
Proof.
  intros Hlen Hchat. unfold converse_body.
  apply Nat.ltb_ge in Hlen. rewrite Hlen.
  now rewrite (bind_Ret _ _ _ _ _ Hchat).
Qed.

Lemma converse_body_chat_ok messages st resp st1 :
  length messages <= 13 ->
  chat messages st = (Ret (resp, None), st1) ->
  converse_body messages st
  = match Choices resp with
    | [] => (Panic (IndexOutOfRange 0 0), choices_printed resp st1)
    | choice :: _ =>
        match FunctionCallOf (Message choice) with
        | None =>
            (Ret (Done (Content (Message choice)) None),
             choices_printed resp st1)
        | Some functionCall =>
            match invokeFunction (fcName functionCall)
                    (fcArguments functionCall) (choices_printed resp st1) with
            | (Ret (out, None), st2) =>
                (Ret (Again (messages
                             ++ [Message choice; tool_result functionCall out])),
                 st2)
            | (Ret (_, Some err), st2) =>
                (Ret (Done "" (Some (fmt_Errorf "failed invoke function: %v"
                                       err))), st2)
            | (Panic p, st2) => (Panic p, st2)
            end
        end
    end.
Proof.
  intros Hlen Hchat. unfold converse_body.
  apply Nat.ltb_ge in Hlen. rewrite Hlen.
  rewrite (bind_Ret _ _ _ _ _ Hchat). simpl.
  unfold bind at 1. rewrite print_choices_run.
  fold (choices_printed resp st1).
  unfold first_choice.
  destruct (Choices resp) as [| choice rest]; [reflexivity |].
  unfold bind at 1, ret at 1.
  destruct (FunctionCallOf (Message choice)) as [functionCall |];
    [| reflexivity].
  unfold bind.
  destruct (invokeFunction _ _ _) as [[[out [err |]] | p] st2]; simpl;
    try reflexivity.
  unfold newMessages. simpl. now rewrite <- app_assoc.
Qed.

(** *** The recursion *)

Lemma converse_eq messages st :
  converse messages st
  = match converse_body messages st with
    | (Ret (Done answer err), st') => (Ret (answer, err), st')
    | (Ret (Again messages'), st') => converse messages' st'
    | (Panic p, st') => (Panic p, st')
    end.
Proof.
  rewrite converse_equation_1.
  destruct (inspect (converse_body messages st))
    as [[[[answer err | messages'] | p] st'] Hbody];
    simpl; rewrite Hbody; reflexivity.
Qed.

(** C1.  A transcript of more than 13 messages: [converse] returns the
    error "too in-depth conversation" with an empty answer, in the state
    it was called in; in particular nothing was sent to the backend. *)
Theorem converse_too_deep messages st :
  13 < length messages ->
  converse messages st
  = (Ret ("", Some (errors_New "too in-depth conversation")), st).
Proof.
  intros Hlen. rewrite converse_eq.
  now rewrite (converse_body_deep _ _ Hlen).
Qed.

(** C8.  Within the bound, when the call of the backend fails:
    [converse] returns an error, the backend's wrapped as
    "failed chat: ...", and the trace has grown by the one request and
    nothing else, so the backend was asked once and no HTTP request
    of a tool handler was made. *)
Theorem converse_chat_failed messages st resp err st1 :
  length messages <= 13 ->
  chat messages st = (Ret (resp, Some err), st1) ->
  converse messages st
  = (Ret ("", Some (fmt_Errorf "failed chat: %v" err)), st1)
  /\ Error (fmt_Errorf "failed chat: %v" err)
     = ("failed chat: " ++ Error err)%string
  /\ trace st1
     = trace st ++ [EvChat openAIAPIKEY (chat_request messages)].
Proof.
  intros Hlen Hchat. split; [| split].
  - rewrite converse_eq.
    now rewrite (converse_body_chat_failed _ _ _ _ _ Hlen Hchat).
  - simpl. now rewrite append_empty_r.
  - exact (chat_trace _ _ _ _ Hchat).
Qed.

(** C9.  Within the bound, after a successful call of the backend:
    [converse] takes element 0 of the choices whatever their number, so a
    reply without choices makes it panic with index 0 out of range for
    length 0, after the one request and with nothing else done; and a pass
    of the body raises an out-of-range panic only for such a reply, so
    that a result is there only when the reply has at least one choice. *)
Theorem converse_no_choice messages st resp st1 :
  length messages <= 13 ->
  chat messages st = (Ret (resp, None), st1) ->
  (Choices resp = [] ->
   converse messages st = (Panic (IndexOutOfRange 0 0), st1))
  /\ ((exists i n, fst (converse_body messages st)
                   = Panic (IndexOutOfRange i n))
      <-> Choices resp = []).
Proof.
  intros Hlen Hchat.
  pose proof (converse_body_chat_ok _ _ _ _ Hlen Hchat) as Hbody.
  assert (Hempty : Choices resp = [] ->
            converse_body messages st = (Panic (IndexOutOfRange 0 0), st1)).
  { intros Hnil. rewrite Hbody, Hnil. unfold choices_printed.
    rewrite Hnil. simpl. rewrite app_nil_r. now destruct st1. }
  split; [| split].
  - intros Hnil. rewrite converse_eq. now rewrite (Hempty Hnil).
  - intros (i & n & Hpanic).
    destruct (Choices resp) as [| choice rest] eqn:Hchoices; [reflexivity |].
    exfalso. rewrite Hbody in Hpanic.
    destruct (FunctionCallOf (Message choice)) as [functionCall |];
      [| discriminate].
    destruct (invokeFunction_effects (fcName functionCall)
                (fcArguments functionCall) (choices_printed resp st1))
      as (evs & _ & _ & Honly).
    destruct (invokeFunction _ _ _) as [[[out [err |]] | p] st2];
      try discriminate.
    simpl in Hpanic. injection Hpanic as ->.
    destruct (Honly _ eq_refl) as [concrete Habs]. discriminate.
  - intros Hnil. exists 0, 0. now rewrite (Hempty Hnil).
Qed.

(** C6.  Within the bound, when the backend's first choice asks for a
    tool and the Dispatcher returns without error: [converse] goes on as
    [converse] on the transcript it was given followed by two messages,
    the message of that choice and then a message of role function, named
    after the tool that was asked for and holding what the Dispatcher
    returned: the bytes of its content are the bytes of the Dispatcher's
    slice, none for a nil slice.  Every earlier entry keeps its place. *)
Theorem converse_tool_round messages st resp st1 choice rest functionCall
    out st2 :
  length messages <= 13 ->
  chat messages st = (Ret (resp, None), st1) ->
  Choices resp = choice :: rest ->
  FunctionCallOf (Message choice) = Some functionCall ->
  invokeFunction (fcName functionCall) (fcArguments functionCall)
    (choices_printed resp st1) = (Ret (out, None), st2) ->
  let output : list byte :=
    match out with
    | Some l => l
    | None => []
    end in
  let result :=
    {| Role := "function";
       Content := string_of_list_byte output;
       Name := fcName functionCall;
       FunctionCallOf := None |} in
  let next := messages ++ [Message choice; result] in
  converse messages st = converse next st2
  /\ list_byte_of_string (Content result) = output
  /\ length next = length messages + 2
  /\ (forall i m, messages !! i = Some m -> next !! i = Some m)
  /\ next !! length messages = Some (Message choice)
  /\ next !! S (length messages) = Some result.
Proof.
  intros Hlen Hchat Hchoices Hcall Hinvoke output result next.
  assert (Hresult : tool_result functionCall out = result)
    by (unfold tool_result, result, output; now destruct out).
  split; [| split; [| split; [| split; [| split]]]].
  - rewrite converse_eq.
    rewrite (converse_body_chat_ok _ _ _ _ Hlen Hchat).
    rewrite Hchoices, Hcall, Hinvoke. now rewrite Hresult.
  - apply list_byte_of_string_of_list_byte.
  - subst next. rewrite length_app. simpl. lia.
  - intros i m Hi. subst next. now apply lookup_app_l_Some.
  - subst next. rewrite lookup_app_r by lia. now rewrite Nat.sub_diag.
  - subst next. rewrite lookup_app_r by lia.
    now replace (S (length messages) - length messages) with 1 by lia.
Qed.

(** C3, as the code has it.  A [weather] request whose payload decodes
    and whose [latitude] is a number: [invokeFunction] returns nothing,
    neither result nor error; its unchecked assertion [.(string)] panics
    (interface conversion: interface {} is float64, not string) right
    after the debug line and before any HTTP request.  [converse] has no
    recover, so the panic ends the run there, the backend having been
    asked once. *)
Theorem invokeFunction_weather_number argsIn args f :
  json_Unmarshal (list_byte_of_string argsIn) = (args, None) ->
  args !! "latitude" = Some (JNumber f) ->
  (forall st,
     invokeFunction "weather" argsIn st
     = (Panic (TypeAssertionError (Some "float64") "string"),
        printed (DebugInvoke "weather" args) st))
  /\ (forall messages st resp st1 choice rest,
        length messages <= 13 ->
        chat messages st = (Ret (resp, None), st1) ->
        Choices resp = choice :: rest ->
        FunctionCallOf (Message choice)
        = Some {| fcName := "weather"; fcArguments := argsIn |} ->
        converse messages st
        = (Panic (TypeAssertionError (Some "float64") "string"),
           printed (DebugInvoke "weather" args) (choices_printed resp st1))).
Proof.
  intros Hdec Hlat.
  assert (Hinvoke : forall st,
     invokeFunction "weather" argsIn st
     = (Panic (TypeAssertionError (Some "float64") "string"),
        printed (DebugInvoke "weather" args) st)).
  { intros st. rewrite (invokeFunction_decoded _ _ _ _ _ Hdec). simpl.
    unfold bind. now rewrite assert_string_run, Hlat. }
  split; [exact Hinvoke |].
  intros messages st resp st1 choice rest Hlen Hchat Hchoices Hcall.
  rewrite converse_eq.
  rewrite (converse_body_chat_ok _ _ _ _ Hlen Hchat).
  rewrite Hchoices, Hcall. simpl. now rewrite Hinvoke.
Qed.

(** *** What the Orchestrator sends to the backend *)

Lemma choice_events_no_chat choices : forall i,
  Forall (fun e => is_chat e = false) (choice_events i choices).
Proof.
  induction choices as [| choice rest IH]; intros i; simpl;
    constructor; auto.
Qed.

(** A pass of the body within the bound: the request for the transcript
    it was given comes first, and nothing else goes to the backend. *)
Lemma converse_body_trace messages st :
  length messages <= 13 ->
  exists evs,
    trace (snd (converse_body messages st))
    = trace st ++ EvChat openAIAPIKEY (chat_request messages) :: evs
    /\ Forall (fun e => is_chat e = false) evs.
Proof.
  intros Hlen.
  destruct (chat_run messages st) as ([resp err] & w & _ & Hchat).
  pose proof (chat_trace _ _ _ _ Hchat) as Htrace.
  set (st1 := {| world := w;
                 trace := trace st
                          ++ [EvChat openAIAPIKEY (chat_request messages)] |})
    in *.
  destruct err as [err |].
  { rewrite (converse_body_chat_failed _ _ _ _ _ Hlen Hchat).
    exists []. split; [exact Htrace | constructor]. }
  rewrite (converse_body_chat_ok _ _ _ _ Hlen Hchat).
  assert (Hprinted : trace (choices_printed resp st1)
            = trace st ++ EvChat openAIAPIKEY (chat_request messages)
                :: choice_events 0 (Choices resp)).
  { unfold choices_printed. simpl. now rewrite <- app_assoc. }
  pose proof (choice_events_no_chat (Choices resp) 0) as Hquiet.
  destruct (Choices resp) as [| choice rest] eqn:Hchoices.
  { eexists. split; [exact Hprinted | exact Hquiet]. }
  destruct (FunctionCallOf (Message choice)) as [functionCall |].
  2: { eexists. split; [exact Hprinted | exact Hquiet]. }
  destruct (invokeFunction_effects (fcName functionCall)
              (fcArguments functionCall) (choices_printed resp st1))
    as (evs & Hevs & Hnochat & _).
  assert (Hgoal : exists evs',
    trace (snd (invokeFunction (fcName functionCall)
                  (fcArguments functionCall) (choices_printed resp st1)))
    = trace st ++ EvChat openAIAPIKEY (chat_request messages) :: evs'
    /\ Forall (fun e => is_chat e = false) evs').
  { exists (choice_events 0 (choice :: rest) ++ evs). split.
    - rewrite Hevs, Hprinted. now rewrite <- app_assoc.
    - apply Forall_app. split; assumption. }
  destruct (invokeFunction _ _ _) as [[[out [err |]] | p] st2];
    exact Hgoal.
Qed.

Lemma tool_rounds_cons message functionCall out l :
  FunctionCallOf message = Some functionCall ->
  tool_rounds l ->
  tool_rounds ([message; tool_result functionCall out] ++ l).
Proof.
  intros Hcall Hl. induction Hl as [| l message' functionCall' out' _ IH H'].
  - apply (rounds_snoc [] _ _ _ rounds_nil Hcall).
  - rewrite app_assoc. now apply rounds_snoc.
Qed.

(** Every request [converse] sends to the backend carries the transcript
    [converse] was called with, followed by whole tool rounds only: each
    tool result comes right after the message that asked for that tool. *)
Theorem converse_requests_paired messages st :
  exists evs,
    trace (snd (converse messages st)) = trace st ++ evs
    /\ (forall key req, In (EvChat key req) evs ->
        exists l, tool_rounds l /\ Messages req = messages ++ l).
Proof.
  remember (14 - length messages) as n eqn:Hn.
  revert messages st Hn.
  induction n as [n IH] using lt_wf_ind. intros messages st Hn.
  rewrite converse_eq.
  destruct (Nat.lt_ge_cases 13 (length messages)) as [Hdeep | Hlen].
  { rewrite (converse_body_deep _ _ Hdeep). exists []. simpl.
    split; [now rewrite app_nil_r | intros _ _ []]. }
  destruct (converse_body_trace messages st Hlen)
    as (evs & Htrace & Hnochat).
  assert (Hhere : forall key req,
            In (EvChat key req)
               (EvChat openAIAPIKEY (chat_request messages) :: evs) ->
            exists l, tool_rounds l /\ Messages req = messages ++ l).
  { intros key req [[= <- <-] | Hin].
    - exists []. split; [constructor | now rewrite app_nil_r].
    - rewrite List.Forall_forall in Hnochat. now apply Hnochat in Hin. }
  destruct (converse_body messages st)
    as [[[answer err | messages'] | p] st'] eqn:Hbody;
    try (eexists; split; [exact Htrace | exact Hhere]).
  (* the body asked for another round *)
  destruct (chat_run messages st) as ([resp err] & w & _ & Hchat).
  destruct err as [err |].
  { rewrite (converse_body_chat_failed _ _ _ _ _ Hlen Hchat) in Hbody.
    discriminate. }
  rewrite (converse_body_chat_ok _ _ _ _ Hlen Hchat) in Hbody.
  destruct (Choices resp) as [| choice rest]; [discriminate |].
  destruct (FunctionCallOf (Message choice)) as [functionCall |] eqn:Hcall;
    [| discriminate].
  destruct (invokeFunction _ _ _) as [[[out [err |]] | p] st2];
    try discriminate.
  injection Hbody as <- <-.
  set (next := messages ++ [Message choice; tool_result functionCall out]).
  assert (Hnext : length next = length messages + 2)
    by (unfold next; rewrite length_app; simpl; lia).
  destruct (IH (14 - length next) ltac:(lia) next st2 eq_refl)
    as (evs2 & Htrace2 & Hpaired2).
  exists (EvChat openAIAPIKEY (chat_request messages) :: evs ++ evs2).
  split.
  - rewrite Htrace2. simpl in Htrace. rewrite Htrace.
    now rewrite <- app_assoc.
  - intros key req Hin.
    change (In (EvChat key req)
              ((EvChat openAIAPIKEY (chat_request messages) :: evs) ++ evs2))
      in Hin.
    apply in_app_or in Hin as [Hin | Hin]; [exact (Hhere key req Hin) |].
    destruct (Hpaired2 _ _ Hin) as (l & Hl & Hreq).
    exists ([Message choice; tool_result functionCall out] ++ l). split.
    + now apply tool_rounds_cons.
    + rewrite Hreq. unfold next. now rewrite <- app_assoc.
Qed.

(** *** The entry point *)

(** C5.  [query] is [converse] on a transcript of exactly three messages:
    the system message "Only use the functions you have been provided
    with.", the system message "Only answer in 50 words or less." and a
    user message holding the inquiry, in this order; and this transcript
    is what the first request to the backend carries. *)
Theorem query_seed inquiry st :
  let transcript :=
    [ {| Role := "system";
         Content := "Only use the functions you have been provided with.";
         Name := "";
         FunctionCallOf := None |};
      {| Role := "system";
         Content := "Only answer in 50 words or less.";
         Name := "";
         FunctionCallOf := None |};
      {| Role := "user";
         Content := inquiry;
         Name := "";
         FunctionCallOf := None |} ] in
  query inquiry st = converse transcript st
  /\ length transcript = 3
  /\ exists evs req,
       trace (snd (query inquiry st)) = trace st ++ EvChat openAIAPIKEY req :: evs
       /\ Messages req = transcript.
Proof.
  intros transcript. split; [reflexivity |]. split; [reflexivity |].
  change (query inquiry st) with (converse transcript st).
  assert (Hlen : length transcript <= 13) by (simpl; lia).
  destruct (converse_body_trace transcript st Hlen) as (evs & Htrace & _).
  rewrite converse_eq.
  destruct (converse_body transcript st)
    as [[[answer err | messages'] | p] st'] eqn:Hbody;
    try (exists evs, (chat_request transcript);
         split; [exact Htrace | reflexivity]).
  destruct (converse_requests_paired messages' st') as (evs2 & Htrace2 & _).
  exists (evs ++ evs2), (chat_request transcript). split; [| reflexivity].
  rewrite Htrace2. simpl in Htrace. rewrite Htrace.
  now rewrite <- app_assoc.
Qed.

(** *** The weather URL *)

(** C10.  The URL [weather] asks for is the fixed address up to [&lat=],
    then a dollar sign, then the latitude as given, then [&lon=] and the
    longitude, then [&appid=] and the API key: only the latitude has the
    dollar sign put before it.  This very URL is what the handler gets. *)
Theorem weather_url_dollar lat lon st :
  let url :=
    ("https://api.openweathermap.org/data/2.5/weather?units=metric&lat=$"
       ++ lat ++ "&lon=" ++ lon ++ "&appid=" ++ openWeatherMapAPIKEY)%string in
  exists out w,
    weather lat lon st
    = (Ret out, {| world := w; trace := trace st ++ [EvHttpGet url] |}).
Proof. apply weather_run. Qed.

End Properties.

(* ===================================================================== *)
(** ** The properties at work on the scripted outside *)
(* ===================================================================== *)

Lemma invokeFunction_decode_error_witness :
  let e := errors_New "unexpected end of JSON input" in
  @json_Unmarshal Stub.outside (list_byte_of_string "") = (∅, Some e)
  /\ @invokeFunction Stub.outside "geocode" "" (Stub.start [])
     = (Ret (None, Some e),
        printed (DebugInvoke "geocode" ∅) (Stub.start [])).
Proof.
  intros e. split; [reflexivity |].
  apply (@invokeFunction_decode_error Stub.outside). reflexivity.
Defined.

Lemma invokeFunction_unregistered_witness :
  let args : gmap string JValue := {[ "location" := JString "Paris" ]} in
  "forecast" <> "geocode" /\ "forecast" <> "weather"
  /\ @json_Unmarshal Stub.outside (list_byte_of_string Stub.args_geocode)
     = (args, None)
  /\ @invokeFunction Stub.outside "forecast" Stub.args_geocode (Stub.start [])
     = (Ret (None, None),
        printed (DebugInvoke "forecast" args) (Stub.start [])).
Proof.
  intros args.
  assert (Hg : "forecast" <> "geocode") by discriminate.
  assert (Hw : "forecast" <> "weather") by discriminate.
  split; [exact Hg |]. split; [exact Hw |]. split; [reflexivity |].
  apply (@invokeFunction_unregistered Stub.outside); [exact Hg | exact Hw |].
  reflexivity.
Defined.

Lemma invokeFunction_registered_witness :
  let args : gmap string JValue :=
    <[ "latitude" := JString "48.85" ]> {[ "longitude" := JString "2.35" ]} in
  @json_Unmarshal Stub.outside (list_byte_of_string Stub.args_weather_strings)
  = (args, None)
  /\ handler_call "weather" args (@weather Stub.outside "48.85" "2.35")
  /\ @invokeFunction Stub.outside "weather" Stub.args_weather_strings
       (Stub.start [])
     = @weather Stub.outside "48.85" "2.35"
         (printed (DebugInvoke "weather" args) (Stub.start [])).
Proof.
  intros args.
  assert (Hcall : handler_call "weather" args
            (@weather Stub.outside "48.85" "2.35"))
    by (apply (@call_weather Stub.outside); reflexivity).
  split; [reflexivity |]. split; [exact Hcall |].
  apply (@invokeFunction_registered Stub.outside); [reflexivity | exact Hcall].
Defined.

Lemma converse_too_deep_witness :
  let messages := replicate 14 (Stub.user "again") in
  13 < length messages
  /\ @converse Stub.outside messages (Stub.start [])
     = (Ret ("", Some (errors_New "too in-depth conversation")),
        Stub.start []).
Proof.
  intros messages.
  assert (Hlen : 13 < length messages) by (simpl; lia).
  split; [exact Hlen |].
  apply (@converse_too_deep Stub.outside). exact Hlen.
Defined.

Lemma converse_chat_failed_witness :
  let messages := [Stub.user "Is it raining in Paris?"] in
  let st1 :=
    @Build_State Stub.outside [] [EvChat "sk-test" (chat_request messages)] in
  @converse Stub.outside messages (Stub.start [])
  = (Ret ("", Some (errors_New "failed chat: EOF")), st1).
Proof.
  intros messages st1.
  refine (proj1 (@converse_chat_failed Stub.outside messages (Stub.start [])
                   {| Choices := [] |} (errors_New "EOF") st1 _ _)).
  - simpl. lia.
  - reflexivity.
Defined.

Lemma converse_no_choice_witness :
  let messages := [Stub.user "Is it raining in Paris?"] in
  let st1 :=
    @Build_State Stub.outside [] [EvChat "sk-test" (chat_request messages)] in
  @converse Stub.outside messages (Stub.start [({| Choices := [] |}, None)])
  = (Panic (IndexOutOfRange 0 0), st1).
Proof.
  intros messages st1.
  refine (proj1 (@converse_no_choice Stub.outside messages
                   (Stub.start [({| Choices := [] |}, None)])
                   {| Choices := [] |} st1 _ _) _).
  - simpl. lia.
  - reflexivity.
  - reflexivity.
Defined.

Lemma converse_tool_round_witness :
  let messages := [Stub.user "Is it raining in Paris?"] in
  let request := Stub.asks "geocode" Stub.args_geocode in
  let script := [Stub.reply request; Stub.reply (Stub.answers "No.")] in
  let st2 :=
    snd (@invokeFunction Stub.outside "geocode" Stub.args_geocode
           (choices_printed (fst (Stub.reply request))
              (snd (@chat Stub.outside messages (Stub.start script))))) in
  fst (@invokeFunction Stub.outside "geocode" Stub.args_geocode
         (choices_printed (fst (Stub.reply request))
            (snd (@chat Stub.outside messages (Stub.start script)))))
  = Ret (Some (list_byte_of_string
                 "body of https://geocoding-api.open-meteo.com/v1/search?name=Paris&count=1&format=json"),
         None)
  /\ @converse Stub.outside messages (Stub.start script)
     = @converse Stub.outside
         (messages
            ++ [request;
                {| Role := "function";
                   Content :=
                     "body of https://geocoding-api.open-meteo.com/v1/search?name=Paris&count=1&format=json";
                   Name := "geocode";
                   FunctionCallOf := None |}])
         st2.
Proof.
  intros messages request script st2. split; [reflexivity |].
  refine (proj1 (@converse_tool_round Stub.outside messages
                   (Stub.start script) (fst (Stub.reply request))
                   (snd (@chat Stub.outside messages (Stub.start script)))
                   {| Message := request |} []
                   {| fcName := "geocode"; fcArguments := Stub.args_geocode |}
                   (Some (list_byte_of_string
                            "body of https://geocoding-api.open-meteo.com/v1/search?name=Paris&count=1&format=json"))
                   st2 _ _ _ _ _)).
  - simpl. lia.
  - reflexivity.
  - reflexivity.
  - reflexivity.
  - reflexivity.
Defined.

(** Scenario A on the scripted outside: the backend asks for [geocode],
    then for [weather] with string coordinates, then answers. *)
Example scenario_A :
  let script :=
    [Stub.reply (Stub.asks "geocode" Stub.args_geocode);
     Stub.reply (Stub.asks "weather" Stub.args_weather_strings);
     Stub.reply (Stub.answers "Mild and dry.")] in
  let run := @query Stub.outside "What's the weather in Paris?"
               (Stub.start script) in
  fst run = Ret ("Mild and dry.", None)
  /\ world (snd run) = []
  /\ filter (fun e => is_http_get e) (trace (snd run))
     = [EvHttpGet ("https://geocoding-api.open-meteo.com/v1/search"
                     ++ "?name=Paris&count=1&format=json");
        EvHttpGet ("https://api.openweathermap.org/data/2.5/weather"
                     ++ "?units=metric&lat=$48.85&lon=2.35&appid=owm-key")]
  /\ length (filter (fun e => is_chat e) (trace (snd run))) = 3.
Proof. vm_compute. repeat split. Qed.

Lemma invokeFunction_weather_number_witness :
  let args : gmap string JValue :=
    <[ "latitude" := JNumber Stub.f48_85 ]>
      {[ "longitude" := JNumber Stub.f2_35 ]} in
  let messages := [Stub.user "Is it raining in Paris?"] in
  let request := Stub.asks "weather" Stub.args_weather_numbers in
  let st := Stub.start [Stub.reply request] in
  @converse Stub.outside messages st
  = (Panic (TypeAssertionError (Some "float64") "string"),
     printed (DebugInvoke "weather" args)
       (choices_printed (fst (Stub.reply request))
          (snd (@chat Stub.outside messages st)))).
Proof.
  intros args messages request st.
  refine (proj2 (@invokeFunction_weather_number Stub.outside
                   Stub.args_weather_numbers args Stub.f48_85 _ _)
            messages st (fst (Stub.reply request))
            (snd (@chat Stub.outside messages st))
            {| Message := request |} [] _ _ _ _).
  - reflexivity.
  - reflexivity.
  - simpl. lia.
  - reflexivity.
  - reflexivity.
  - reflexivity.
Defined.

(** C3, as the claim has it, fails on the payload the advertised schema
    of [weather] asks for, [{"latitude":48.85,"longitude":2.35}]: it
    decodes, its latitude is a number, and [invokeFunction] does not
    return an error, since it does not return at all. *)
Lemma invokeFunction_weather_number_no_error :
  let args : gmap string JValue :=
    <[ "latitude" := JNumber Stub.f48_85 ]>
      {[ "longitude" := JNumber Stub.f2_35 ]} in
  @json_Unmarshal Stub.outside (list_byte_of_string Stub.args_weather_numbers)
  = (args, None)
  /\ args !! "latitude" = Some (JNumber Stub.f48_85)
  /\ fst (@invokeFunction Stub.outside "weather" Stub.args_weather_numbers
            (Stub.start []))
     = Panic (TypeAssertionError (Some "float64") "string")
  /\ ~ (exists result err st',
          @invokeFunction Stub.outside "weather" Stub.args_weather_numbers
            (Stub.start [])
          = (Ret (result, Some err), st')).
Proof.
  intros args.
  assert (Hrun : fst (@invokeFunction Stub.outside "weather"
                        Stub.args_weather_numbers (Stub.start []))
                 = Panic (TypeAssertionError (Some "float64") "string"))
    by reflexivity.
  split; [reflexivity |]. split; [reflexivity |]. split; [exact Hrun |].
  intros (result & err & st' & Hret). rewrite Hret in Hrun. discriminate.
Qed.

(* ===================================================================== *)
(** ** Further properties: handlers, Dispatcher, Orchestrator, process *)
(* ===================================================================== *)

Section FurtherProperties.

Context {outside : Outside}.

Implicit Types (st : State outside) (messages : list ChatCompletionMessage).

(** *** The tool handlers *)

(** X1.  [geocode] asks for the open-meteo search URL with the location
    put in as it is, nothing escaped, and this is its only request.  When
    the GET fails it returns a nil result with that error, and no body is
    read or closed; otherwise it returns what [ioutil.ReadAll] gave, bytes
    and error alike, and the body is closed after the read.  It never
    panics. *)
Theorem geocode_outcome location st :
  let url :=
    ("https://geocoding-api.open-meteo.com/v1/search?name="
       ++ location ++ "&count=1&format=json")%string in
  geocode location st
  = match http_Get url (world st) with
    | (inr err, w) =>
        (Ret (None, Some err),
         {| world := w; trace := trace st ++ [EvHttpGet url] |})
    | (inl body, w) =>
        (Ret (fst (ioutil_ReadAll body w)),
         {| world := Body_Close body (snd (ioutil_ReadAll body w));
            trace := trace st ++ [EvHttpGet url] |})
    end.
Proof.
  intros url. unfold geocode. cbv zeta. rewrite geocode_url. fold url.
  unfold Get, ReadAll, Close, bind, emit, external, ret; simpl.
  destruct (http_Get url (world st)) as [[body | err] w]; simpl;
    [| reflexivity].
  now destruct (ioutil_ReadAll body w) as [out w'].
Qed.

(** X2.  [weather] behaves in the same way on its own URL: one GET; a
    failed GET gives a nil result with the error and touches no body; a GET
    that succeeds gives what [ioutil.ReadAll] gave, and the body is closed
    after the read. *)
Theorem weather_outcome lat lon st :
  let url :=
    ("https://api.openweathermap.org/data/2.5/weather?units=metric&lat=$"
       ++ lat ++ "&lon=" ++ lon ++ "&appid=" ++ openWeatherMapAPIKEY)%string in
  weather lat lon st
  = match http_Get url (world st) with
    | (inr err, w) =>
        (Ret (None, Some err),
         {| world := w; trace := trace st ++ [EvHttpGet url] |})
    | (inl body, w) =>
        (Ret (fst (ioutil_ReadAll body w)),
         {| world := Body_Close body (snd (ioutil_ReadAll body w));
            trace := trace st ++ [EvHttpGet url] |})
    end.
Proof.
  intros url. unfold weather. cbv zeta. rewrite weather_url. fold url.
  unfold Get, ReadAll, Close, bind, emit, external, ret; simpl.
  destruct (http_Get url (world st)) as [[body | err] w]; simpl;
    [| reflexivity].
  now destruct (ioutil_ReadAll body w) as [out w'].
Qed.

(** *** The Dispatcher *)

(** X3.  With a payload that decodes, [invokeFunction] panics exactly
    when one of the fields it asserts for the tool ([location] for geocode;
    [latitude], then [longitude] for weather) is not a string: the panic
    names the dynamic type of the first such field (nil for a missing key
    or a JSON null) and comes right after the debug line, before any HTTP
    request.  In every other case it returns. *)
Theorem invokeFunction_assertions name argsIn args st :
  json_Unmarshal (list_byte_of_string argsIn) = (args, None) ->
  match first_mistyped name args with
  | Some field =>
      invokeFunction name argsIn st
      = (Panic (TypeAssertionError (dynamic_type (args !! field)) "string"),
         printed (DebugInvoke name args) st)
  | None => exists out st', invokeFunction name argsIn st = (Ret out, st')
  end.
Proof.
  intros Hdec. rewrite (invokeFunction_decoded _ _ _ _ _ Hdec).
  unfold first_mistyped, asserted_fields.
  set (st0 := printed (DebugInvoke name args) st).
  destruct (String.eqb name "geocode").
  { unfold bind. rewrite assert_string_run. simpl.
    destruct (args !! "location") as [[| b | f | location | l | m] |]
      eqn:Hloc; simpl; rewrite ?Hloc; try reflexivity.
    destruct (geocode_run location st0) as (out & w & ->). eauto. }
  destruct (String.eqb name "weather").
  { unfold bind. rewrite assert_string_run. simpl.
    destruct (args !! "latitude") as [[| b | f | lat | l | m] |]
      eqn:Hlat; simpl; rewrite ?Hlat; try reflexivity.
    rewrite assert_string_run.
    destruct (args !! "longitude") as [[| b | f | lon | l | m] |]
      eqn:Hlon; simpl; rewrite ?Hlon; try reflexivity.
    destruct (weather_run lat lon st0) as (out & w & ->). eauto. }
  simpl. unfold ret. eauto.
Qed.

Lemma invokeFunction_trace_shape name argsIn st :
  exists evs,
    trace (snd (invokeFunction name argsIn st))
    = trace st
        ++ EvPrint (DebugInvoke name
                      (fst (json_Unmarshal (list_byte_of_string argsIn))))
        :: evs
    /\ (evs = [] \/ exists url, evs = [EvHttpGet url]).
Proof.
  destruct (json_Unmarshal (list_byte_of_string argsIn)) as [args err] eqn:Hdec.
  rewrite (invokeFunction_decoded _ _ _ _ _ Hdec). simpl.
  set (st0 := printed (DebugInvoke name args) st).
  assert (Hstay : forall (o : Outcome (bytes * option error)),
    exists evs,
      trace (snd (o, st0)) = trace st ++ EvPrint (DebugInvoke name args) :: evs
      /\ (evs = [] \/ exists url, evs = [EvHttpGet url])).
  { intros o. exists []. split; [reflexivity | now left]. }
  assert (Hhandler : forall (handler : M outside (bytes * option error)) url,
    (exists out w,
       handler st0
       = (Ret out,
          {| world := w; trace := trace st0 ++ [EvHttpGet url] |})) ->
    exists evs,
      trace (snd (handler st0))
      = trace st ++ EvPrint (DebugInvoke name args) :: evs
      /\ (evs = [] \/ exists url, evs = [EvHttpGet url])).
  { intros handler url (out & w & ->). exists [EvHttpGet url]. simpl.
    split; [now rewrite <- app_assoc | right; eauto]. }
  destruct err as [e |]; [apply Hstay |].
  destruct (String.eqb name "geocode").
  { unfold bind. rewrite assert_string_run.
    destruct (args !! "location") as [[] |]; try apply Hstay.
    eapply Hhandler, geocode_run. }
  destruct (String.eqb name "weather").
  { unfold bind. rewrite !assert_string_run.
    destruct (args !! "latitude") as [[] |]; try apply Hstay.
    rewrite !assert_string_run.
    destruct (args !! "longitude") as [[] |]; try apply Hstay.
    eapply Hhandler, weather_run. }
  apply Hstay.
Qed.

(** X4.  Whatever its arguments, [invokeFunction] first prints its debug
    line, with the map as [json.Unmarshal] left it, and then makes at most
    one HTTP GET and nothing else: it never calls the backend. *)
Theorem invokeFunction_events name argsIn st :
  exists evs,
    trace (snd (invokeFunction name argsIn st))
    = trace st
        ++ EvPrint (DebugInvoke name
                      (fst (json_Unmarshal (list_byte_of_string argsIn))))
        :: evs
    /\ (evs = [] \/ exists url, evs = [EvHttpGet url]).
Proof. apply invokeFunction_trace_shape. Qed.

(** *** Counting events *)

Lemma chats_app (evs1 evs2 : list Event) :
  chats (evs1 ++ evs2) = chats evs1 + chats evs2.
Proof. unfold chats. now rewrite List.filter_app, length_app. Qed.

Lemma gets_app (evs1 evs2 : list Event) :
  gets (evs1 ++ evs2) = gets evs1 + gets evs2.
Proof. unfold gets. now rewrite List.filter_app, length_app. Qed.

Lemma choice_events_quiet choices : forall i,
  chats (choice_events i choices) = 0 /\ gets (choice_events i choices) = 0.
Proof.
  induction choices as [| choice rest IH]; intros i; simpl;
    [split; reflexivity | apply IH].
Qed.

(** *** One pass of the Orchestrator, by its events and its result *)

Lemma converse_body_events messages st :
  length messages <= 13 ->
  exists evs,
    trace (snd (converse_body messages st))
    = trace st ++ EvChat openAIAPIKEY (chat_request messages) :: evs
    /\ chats evs = 0 /\ gets evs <= 1.
Proof.
  intros Hlen.
  destruct (chat_run messages st) as ([resp err] & w & _ & Hchat).
  pose proof (chat_trace _ _ _ _ Hchat) as Htrace.
  set (st1 := {| world := w;
                 trace := trace st
                          ++ [EvChat openAIAPIKEY (chat_request messages)] |})
    in *.
  destruct err as [err |].
  { rewrite (converse_body_chat_failed _ _ _ _ _ Hlen Hchat).
    exists []. split; [exact Htrace |].
    split; [reflexivity | unfold gets; simpl; lia]. }
  rewrite (converse_body_chat_ok _ _ _ _ Hlen Hchat).
  assert (Hprinted : trace (choices_printed resp st1)
            = trace st ++ EvChat openAIAPIKEY (chat_request messages)
                :: choice_events 0 (Choices resp)).
  { unfold choices_printed. simpl. now rewrite <- app_assoc. }
  destruct (choice_events_quiet (Choices resp) 0) as [Hchats Hgets].
  assert (Hquiet : exists evs,
    trace (choices_printed resp st1)
    = trace st ++ EvChat openAIAPIKEY (chat_request messages) :: evs
    /\ chats evs = 0 /\ gets evs <= 1).
  { eexists. split; [exact Hprinted |]. split; [exact Hchats | lia]. }
  destruct (Choices resp) as [| choice rest] eqn:Hchoices; [exact Hquiet |].
  destruct (FunctionCallOf (Message choice)) as [functionCall |];
    [| exact Hquiet].
  destruct (invokeFunction_trace_shape (fcName functionCall)
              (fcArguments functionCall) (choices_printed resp st1))
    as (evs & Hevs & Hshape).
  assert (Hgoal : exists evs',
    trace (snd (invokeFunction (fcName functionCall)
                  (fcArguments functionCall) (choices_printed resp st1)))
    = trace st ++ EvChat openAIAPIKEY (chat_request messages) :: evs'
    /\ chats evs' = 0 /\ gets evs' <= 1).
  { eexists. split.
    - rewrite Hevs, Hprinted. rewrite <- app_assoc. reflexivity.
    - rewrite chats_app, gets_app, Hchats, Hgets.
      destruct Hshape as [-> | [url ->]]; unfold chats, gets; simpl;
        split; lia. }
  destruct (invokeFunction _ _ _) as [[[out [err |]] | p] st2];
    exact Hgoal.
Qed.

(** Within the bound, a pass that is over with an error reports the
    backend's or the Dispatcher's, under its own prefix. *)
Lemma converse_body_Done messages st answer err st' :
  length messages <= 13 ->
  converse_body messages st = (Ret (Done answer (Some err)), st') ->
  exists cause,
    err = fmt_Errorf "failed chat: %v" cause
    \/ err = fmt_Errorf "failed invoke function: %v" cause.
Proof.
  intros Hlen.
  destruct (chat_run messages st) as ([resp e] & w & _ & Hchat).
  destruct e as [e |].
  { rewrite (converse_body_chat_failed _ _ _ _ _ Hlen Hchat).
    intros [= _ <- _]. exists e. now left. }
  rewrite (converse_body_chat_ok _ _ _ _ Hlen Hchat).
  destruct (Choices resp) as [| choice rest]; [discriminate |].
  destruct (FunctionCallOf (Message choice)) as [functionCall |];
    [| discriminate].
  destruct (invokeFunction _ _ _) as [[[out [e |]] | p] st2];
    try discriminate.
  intros [= _ <- _]. exists e. now right.
Qed.

(** A pass that asks for another round has added one tool round. *)
Lemma converse_body_Again messages st messages' st' :
  converse_body messages st = (Ret (Again messages'), st') ->
  length messages <= 13
  /\ exists message functionCall out,
       FunctionCallOf message = Some functionCall
       /\ messages' = messages ++ [message; tool_result functionCall out].
Proof.
  intros H.
  destruct (Nat.lt_ge_cases 13 (length messages)) as [Hdeep | Hlen].
  { rewrite (converse_body_deep _ _ Hdeep) in H. discriminate. }
  split; [exact Hlen |].
  destruct (chat_run messages st) as ([resp e] & w & _ & Hchat).
  destruct e as [e |].
  { rewrite (converse_body_chat_failed _ _ _ _ _ Hlen Hchat) in H.
    discriminate. }
  rewrite (converse_body_chat_ok _ _ _ _ Hlen Hchat) in H.
  destruct (Choices resp) as [| choice rest]; [discriminate |].
  destruct (FunctionCallOf (Message choice)) as [functionCall |] eqn:Hcall;
    [| discriminate].
  destruct (invokeFunction _ _ _) as [[[out [e |]] | p] st2];
    try discriminate.
  injection H as <- _. eauto.
Qed.

(** *** A whole run of the Orchestrator *)

(** The events of a run, the requests among them, and what the error of
    the guard tells. *)
Lemma converse_run messages st :
  exists evs,
    trace (snd (converse messages st)) = trace st ++ evs
    /\ chats evs <= (15 - length messages) / 2
    /\ gets evs <= chats evs
    /\ (forall key req, In (EvChat key req) evs ->
        key = openAIAPIKEY
        /\ exists l,
             tool_rounds l
             /\ req = chat_request (messages ++ l)
             /\ length (messages ++ l) <= 13)
    /\ (forall answer,
          fst (converse messages st)
          = Ret (answer, Some (errors_New "too in-depth conversation")) ->
          answer = "" /\ chats evs = (15 - length messages) / 2).
Proof.
  remember (14 - length messages) as n eqn:Hn.
  revert messages st Hn.
  induction n as [n IH] using lt_wf_ind. intros messages st Hn.
  rewrite converse_eq.
  destruct (Nat.lt_ge_cases 13 (length messages)) as [Hdeep | Hlen].
  { rewrite (converse_body_deep _ _ Hdeep). exists []. simpl.
    split; [now rewrite app_nil_r |].
    split; [unfold chats; simpl; lia |]. split; [reflexivity |].
    split; [intros _ _ [] |].
    intros answer [= <-]. split; [reflexivity |].
    unfold chats. simpl.
    replace (15 - length messages) with (1 - (length messages - 14)) by lia.
    destruct (length messages - 14); reflexivity. }
  assert (Hbound : (15 - length messages) / 2
                   = 1 + (15 - (length messages + 2)) / 2).
  { replace (15 - length messages)
      with (15 - (length messages + 2) + 1 * 2) by lia.
    rewrite Nat.div_add by lia. lia. }
  destruct (converse_body_events messages st Hlen)
    as (evs & Htrace & Hchats & Hgets).
  assert (Hhere : forall key req,
            In (EvChat key req)
               (EvChat openAIAPIKEY (chat_request messages) :: evs) ->
            key = openAIAPIKEY
            /\ exists l,
                 tool_rounds l
                 /\ req = chat_request (messages ++ l)
                 /\ length (messages ++ l) <= 13).
  { intros key req [[= <- <-] | Hin].
    - split; [reflexivity |]. exists [].
      rewrite app_nil_r. split; [constructor |]. split; [reflexivity | lia].
    - exfalso. unfold chats in Hchats.
      assert (Hin' : In (EvChat key req) (List.filter is_chat evs))
        by (apply List.filter_In; split; [exact Hin | reflexivity]).
      destruct (List.filter is_chat evs); [destruct Hin' | discriminate]. }
  assert (Hcount : chats (EvChat openAIAPIKEY (chat_request messages) :: evs)
                   = 1
                   /\ gets (EvChat openAIAPIKEY (chat_request messages) :: evs)
                      <= 1).
  { change (EvChat openAIAPIKEY (chat_request messages) :: evs)
      with ([EvChat openAIAPIKEY (chat_request messages)] ++ evs).
    rewrite chats_app, gets_app, Hchats. unfold chats, gets in *. simpl. lia. }
  destruct Hcount as [Hone Hget].
  destruct (converse_body messages st)
    as [[[answer err | messages'] | p] st'] eqn:Hbody.
  - (* over, with an answer or an error *)
    eexists. split; [exact Htrace |].
    split; [rewrite Hone, Hbound; lia |]. split; [lia |].
    split; [exact Hhere |].
    intros answer' [= -> ->]. exfalso.
    destruct (converse_body_Done _ _ _ _ _ Hlen Hbody)
      as (cause & [Habs | Habs]); discriminate.
  - (* another round *)
    destruct (converse_body_Again _ _ _ _ Hbody)
      as (_ & message & functionCall & out & Hcall & ->).
    set (next := messages ++ [message; tool_result functionCall out]).
    assert (Hnext : length next = length messages + 2)
      by (unfold next; rewrite length_app; simpl; lia).
    destruct (IH (14 - length next) ltac:(lia) next st' eq_refl)
      as (evs2 & Htrace2 & Hchats2 & Hgets2 & Hreqs2 & Hdeep2).
    exists ((EvChat openAIAPIKEY (chat_request messages) :: evs) ++ evs2).
    split.
    { rewrite Htrace2. simpl in Htrace. rewrite Htrace.
      now rewrite <- app_assoc. }
    rewrite chats_app, gets_app, Hone, Hbound. rewrite Hnext in *.
    split; [lia |]. split; [lia |]. split.
    + intros key req Hin.
      apply in_app_or in Hin as [Hin | Hin]; [exact (Hhere key req Hin) |].
      destruct (Hreqs2 _ _ Hin) as (-> & l & Hl & -> & Hlen2).
      split; [reflexivity |].
      exists ([message; tool_result functionCall out] ++ l).
      unfold next in *. rewrite <- app_assoc in Hlen2.
      split; [now apply tool_rounds_cons |].
      split; [now rewrite <- app_assoc | exact Hlen2].
    + intros answer Hdeep.
      destruct (Hdeep2 _ Hdeep) as [-> Heq]. split; [reflexivity | lia].
  - (* a panic *)
    eexists. split; [exact Htrace |].
    split; [rewrite Hone, Hbound; lia |]. split; [lia |].
    split; [exact Hhere | discriminate].
Qed.

(** X5.  A run of [converse] asks the backend at most
    [(15 - len(messages)) / 2] times, which is 6 for the three messages
    [query] starts from and 0 above 13 messages; and it makes at most one
    HTTP GET for each of these requests. *)
Theorem converse_request_count messages st :
  exists evs,
    trace (snd (converse messages st)) = trace st ++ evs
    /\ chats evs <= (15 - length messages) / 2
    /\ gets evs <= chats evs.
Proof.
  destruct (converse_run messages st) as (evs & Htrace & Hchats & Hgets & _).
  eauto.
Qed.

(** X6.  Every request of a run goes out under the key [openAIAPIKEY],
    names the model gpt-3.5-turbo and the two functions, and carries the
    transcript [converse] was called with followed by whole tool rounds,
    never more than 13 messages in all. *)
Theorem converse_requests_shape messages st :
  exists evs,
    trace (snd (converse messages st)) = trace st ++ evs
    /\ (forall key req, In (EvChat key req) evs ->
        key = openAIAPIKEY
        /\ Model req = "gpt-3.5-turbo"
        /\ map fdName (Functions req) = ["geocode"; "weather"]
        /\ length (Messages req) <= 13
        /\ exists l, tool_rounds l /\ Messages req = messages ++ l).
Proof.
  destruct (converse_run messages st) as (evs & Htrace & _ & _ & Hreqs & _).
  exists evs. split; [exact Htrace |]. intros key req Hin.
  destruct (Hreqs _ _ Hin) as (-> & l & Hl & -> & Hlen).
  split; [reflexivity |]. split; [reflexivity |]. split; [reflexivity |].
  split; [exact Hlen |]. exists l. split; [exact Hl | reflexivity].
Qed.

(** X7.  The error "too in-depth conversation" comes from the guard
    alone: a run that ends with it has an empty answer and has asked the
    backend as often as the bound allows, every one of these rounds having
    been a tool call that the Dispatcher served without error. *)
Theorem converse_too_deep_at_bound messages st answer :
  fst (converse messages st)
  = Ret (answer, Some (errors_New "too in-depth conversation")) ->
  answer = ""
  /\ exists evs,
       trace (snd (converse messages st)) = trace st ++ evs
       /\ chats evs = (15 - length messages) / 2.
Proof.
  intros Hdeep.
  destruct (converse_run messages st) as (evs & Htrace & _ & _ & _ & Hguard).
  destruct (Hguard _ Hdeep) as [-> Hchats]. eauto.
Qed.

Lemma fmt_Errorf_invoke err :
  fmt_Errorf "failed invoke function: %v" err
  = errors_New ("failed invoke function: " ++ Error err).
Proof.
  unfold fmt_Errorf. rewrite <- (append_empty_r (Error err)) at 2.
  reflexivity.
Qed.

Lemma fmt_Errorf_chat err :
  fmt_Errorf "failed chat: %v" err = errors_New ("failed chat: " ++ Error err).
Proof.
  unfold fmt_Errorf. rewrite <- (append_empty_r (Error err)) at 2.
  reflexivity.
Qed.

(** X8.  Within the bound, when the backend's first choice carries no
    function call: [converse] returns the content of that choice with a
    nil error, after the one request and the debug lines; the other
    choices are printed and otherwise ignored. *)
Theorem converse_answer messages st resp st1 choice rest :
  length messages <= 13 ->
  chat messages st = (Ret (resp, None), st1) ->
  Choices resp = choice :: rest ->
  FunctionCallOf (Message choice) = None ->
  converse messages st
  = (Ret (Content (Message choice), None), choices_printed resp st1).
Proof.
  intros Hlen Hchat Hchoices Hcall. rewrite converse_eq.
  rewrite (converse_body_chat_ok _ _ _ _ Hlen Hchat).
  now rewrite Hchoices, Hcall.
Qed.

(** X9.  Within the bound, when the first choice asks for a tool and the
    Dispatcher returns an error: [converse] returns an empty answer with
    the error "failed invoke function: " followed by the Dispatcher's, in
    the state the Dispatcher left; the backend is not asked again. *)
Theorem converse_invoke_failed messages st resp st1 choice rest functionCall
    out err st2 :
  length messages <= 13 ->
  chat messages st = (Ret (resp, None), st1) ->
  Choices resp = choice :: rest ->
  FunctionCallOf (Message choice) = Some functionCall ->
  invokeFunction (fcName functionCall) (fcArguments functionCall)
    (choices_printed resp st1) = (Ret (out, Some err), st2) ->
  converse messages st
  = (Ret ("", Some (errors_New ("failed invoke function: " ++ Error err))),
     st2).
Proof.
  intros Hlen Hchat Hchoices Hcall Hinvoke. rewrite converse_eq.
  rewrite (converse_body_chat_ok _ _ _ _ Hlen Hchat).
  rewrite Hchoices, Hcall, Hinvoke. simpl.
  now rewrite fmt_Errorf_invoke.
Qed.

(** X10.  Within the bound, when the first choice asks for [geocode] with
    a string location and the HTTP GET fails: the failure reaches the
    caller of [converse] as "failed invoke function: " followed by the
    error of the GET, and the run has made that one request to the
    backend and that one GET. *)
Theorem converse_geocode_get_failed messages st resp st1 choice rest argsIn
    args location err w :
  length messages <= 13 ->
  chat messages st = (Ret (resp, None), st1) ->
  Choices resp = choice :: rest ->
  FunctionCallOf (Message choice)
  = Some {| fcName := "geocode"; fcArguments := argsIn |} ->
  json_Unmarshal (list_byte_of_string argsIn) = (args, None) ->
  args !! "location" = Some (JString location) ->
  http_Get
    ("https://geocoding-api.open-meteo.com/v1/search?name="
       ++ location ++ "&count=1&format=json")%string (world st1)
  = (inr err, w) ->
  converse messages st
  = (Ret ("", Some (errors_New ("failed invoke function: " ++ Error err))),
     {| world := w;
        trace :=
          trace st
            ++ [EvChat openAIAPIKEY (chat_request messages)]
            ++ choice_events 0 (Choices resp)
            ++ [EvPrint (DebugInvoke "geocode" args);
                EvHttpGet
                  ("https://geocoding-api.open-meteo.com/v1/search?name="
                     ++ location ++ "&count=1&format=json")] |}).
Proof.
  intros Hlen Hchat Hchoices Hcall Hdec Hloc Hget. rewrite converse_eq.
  rewrite (converse_body_chat_ok _ _ _ _ Hlen Hchat).
  rewrite Hchoices, Hcall. simpl.
  rewrite (invokeFunction_decoded _ _ _ _ _ Hdec). simpl.
  unfold bind at 1. rewrite assert_string_run, Hloc.
  unfold geocode. cbv zeta. rewrite geocode_url.
  unfold Get, bind, emit, external, ret; simpl. rewrite Hget. simpl.
  rewrite fmt_Errorf_invoke. rewrite (chat_trace _ _ _ _ Hchat).
  rewrite ?Hchoices. now rewrite <- !app_assoc.
Qed.

(** X11.  Within the bound, when the first choice asks for a tool that
    is neither geocode nor weather, with a payload that decodes: the run
    does not stop.  [converse] goes on with the transcript followed by the
    request and by a function message that bears the unknown name and has
    an empty content. *)
Theorem converse_unregistered_round messages st resp st1 choice rest
    functionCall args :
  length messages <= 13 ->
  chat messages st = (Ret (resp, None), st1) ->
  Choices resp = choice :: rest ->
  FunctionCallOf (Message choice) = Some functionCall ->
  fcName functionCall <> "geocode" ->
  fcName functionCall <> "weather" ->
  json_Unmarshal (list_byte_of_string (fcArguments functionCall))
  = (args, None) ->
  converse messages st
  = converse
      (messages
         ++ [Message choice;
             {| Role := "function";
                Content := "";
                Name := fcName functionCall;
                FunctionCallOf := None |}])
      (printed (DebugInvoke (fcName functionCall) args)
         (choices_printed resp st1)).
Proof.
  intros Hlen Hchat Hchoices Hcall Hg Hw Hdec. rewrite converse_eq.
  rewrite (converse_body_chat_ok _ _ _ _ Hlen Hchat).
  rewrite Hchoices, Hcall.
  rewrite (invokeFunction_decoded _ _ _ _ _ Hdec).
  apply String.eqb_neq in Hg, Hw. rewrite Hg, Hw. reflexivity.
Qed.

(** *** The process *)

Lemma length_append (s1 s2 : string) :
  String.length (s1 ++ s2) = String.length s1 + String.length s2.
Proof.
  induction s1 as [| c s1 IH]; [reflexivity |].
  change (S (String.length (s1 ++ s2))
          = S (String.length s1 + String.length s2)).
  now rewrite IH.
Qed.

(** The length of a join: the lengths of the elements and one separator
    between each two of them. *)
Lemma length_strings_Join elems sep :
  String.length (strings_Join elems sep)
  = list_sum (map String.length elems)
    + String.length sep * (length elems - 1).
Proof.
  induction elems as [| elem rest IH]; [simpl; lia |].
  destruct rest as [| elem' rest'].
  - simpl. lia.
  - change (strings_Join (elem :: elem' :: rest') sep)
      with (elem ++ sep ++ strings_Join (elem' :: rest') sep)%string.
    rewrite !length_append, IH. simpl. lia.
Qed.

Lemma main_inquiry Args :
  (if Nat.ltb 1 (length Args) then strings_Join (drop 1 Args) " " else "")
  = strings_Join (drop 1 Args) " ".
Proof.
  destruct Args as [| program [| word words]]; reflexivity.
Qed.

(** X12.  [main] gives up with "Supply some inquiry!" exactly when the
    arguments after the program name, with one space between each two of
    them, make fewer than 2 bytes: no argument, one argument of at most one
    byte, or two empty arguments.  It has then done nothing else: the
    backend was not asked. *)
Theorem main_supply Args st :
  let words := drop 1 Args in
  (fst (main Args st) = Fatal "Supply some inquiry!"
   <-> list_sum (map String.length words) + (length words - 1) < 2)
  /\ (fst (main Args st) = Fatal "Supply some inquiry!" ->
      snd (main Args st) = st).
Proof.
  intros words. unfold main. cbv zeta. rewrite main_inquiry. fold words.
  pose proof (length_strings_Join words " ") as Hjoin.
  change (String.length " ") with 1 in Hjoin. rewrite Nat.mul_1_l in Hjoin.
  destruct (Nat.ltb_spec (String.length (strings_Join words " ")) 2)
    as [Hshort | Hlong].
  { split; [split; [lia | reflexivity] | reflexivity]. }
  assert (Hnot : fst match query (strings_Join words " ") st with
                     | (Ret (answer, Some err), st') =>
                         (Fatal (Sprintf "Failed query answer: %v" [Error err]),
                          st')
                     | (Ret (answer, None), st') =>
                         (Returned (answer ++ newline), st')
                     | (Panic p, st') => (Crashed p, st')
                     end
                 <> Fatal "Supply some inquiry!").
  { destruct (query _ st) as [[[answer [err |]] | p] st']; simpl;
      discriminate. }
  split; [split; [intros Habs; now apply Hnot in Habs | lia] |].
  intros Habs. now apply Hnot in Habs.
Qed.

(** X13.  With an inquiry of at least 2 bytes, when the first call of the
    backend fails: [main] logs "Failed query answer: failed chat: " followed
    by the backend's error and exits with status 1, the backend having
    been asked once, with the two system messages and the words of the
    command line joined by spaces. *)
Theorem main_backend_failure Args st resp err st1 :
  let inquiry := strings_Join (drop 1 Args) " " in
  let transcript :=
    [ {| Role := "system";
         Content := "Only use the functions you have been provided with.";
         Name := "";
         FunctionCallOf := None |};
      {| Role := "system";
         Content := "Only answer in 50 words or less.";
         Name := "";
         FunctionCallOf := None |};
      {| Role := "user";
         Content := inquiry;
         Name := "";
         FunctionCallOf := None |} ] in
  2 <= String.length inquiry ->
  chat transcript st = (Ret (resp, Some err), st1) ->
  main Args st
  = (Fatal ("Failed query answer: failed chat: " ++ Error err), st1)
  /\ trace st1 = trace st ++ [EvChat openAIAPIKEY (chat_request transcript)].
Proof.
  intros inquiry transcript Hlong Hchat.
  split; [| exact (chat_trace _ _ _ _ Hchat)].
  unfold main. cbv zeta. rewrite main_inquiry. fold inquiry.
  apply Nat.ltb_ge in Hlong. rewrite Hlong.
  change (query inquiry st) with (converse transcript st).
  rewrite converse_eq.
  assert (Hlen : length transcript <= 13) by (simpl; lia).
  rewrite (converse_body_chat_failed _ _ _ _ _ Hlen Hchat).
  rewrite fmt_Errorf_chat. simpl. now rewrite append_empty_r.
Qed.

(** X14.  With an inquiry of at least 2 bytes, when the backend's first
    choice carries no function call: [main] prints the content of that
    choice and a newline and returns, after one request to the backend
    and no HTTP GET. *)
Theorem main_direct_answer Args st resp st1 choice rest :
  let inquiry := strings_Join (drop 1 Args) " " in
  let transcript :=
    [ {| Role := "system";
         Content := "Only use the functions you have been provided with.";
         Name := "";
         FunctionCallOf := None |};
      {| Role := "system";
         Content := "Only answer in 50 words or less.";
         Name := "";
         FunctionCallOf := None |};
      {| Role := "user";
         Content := inquiry;
         Name := "";
         FunctionCallOf := None |} ] in
  2 <= String.length inquiry ->
  chat transcript st = (Ret (resp, None), st1) ->
  Choices resp = choice :: rest ->
  FunctionCallOf (Message choice) = None ->
  main Args st
  = (Returned (Content (Message choice) ++ newline), choices_printed resp st1)
  /\ trace (choices_printed resp st1)
     = trace st
         ++ EvChat openAIAPIKEY (chat_request transcript)
         :: choice_events 0 (Choices resp).
Proof.
  intros inquiry transcript Hlong Hchat Hchoices Hcall. split.
  - unfold main. cbv zeta. rewrite main_inquiry. fold inquiry.
    apply Nat.ltb_ge in Hlong. rewrite Hlong.
    change (query inquiry st) with (converse transcript st).
    rewrite converse_eq.
    assert (Hlen : length transcript <= 13) by (simpl; lia).
    rewrite (converse_body_chat_ok _ _ _ _ Hlen Hchat).
    now rewrite Hchoices, Hcall.
  - unfold choices_printed. simpl. rewrite (chat_trace _ _ _ _ Hchat).
    now rewrite <- app_assoc.
Qed.

(** X15.  Whatever its arguments and whatever the outside answers,
    [main] asks the backend at most 6 times and makes at most one HTTP GET
    for each of these requests. *)
Theorem main_request_bound Args st :
  exists evs,
    trace (snd (main Args st)) = trace st ++ evs
    /\ chats evs <= 6
    /\ gets evs <= chats evs.
Proof.
  unfold main. cbv zeta.
  destruct (Nat.ltb _ 2).
  { exists []. simpl. split; [now rewrite app_nil_r |].
    unfold chats, gets. simpl. lia. }
  set (inquiry := if Nat.ltb 1 (length Args) then _ else _).
  unfold query.
  match goal with
  | |- context [converse ?transcript st] =>
      destruct (converse_run transcript st)
        as (evs & Htrace & Hchats & Hgets & _)
  end.
  exists evs. change ((15 - 3) / 2) with 6 in Hchats.
  split; [| split; assumption].
  rewrite <- Htrace.
  destruct (converse _ st) as [[[answer [err |]] | p] st']; reflexivity.
Qed.

End FurtherProperties.

(* ===================================================================== *)
(** ** The further properties at work on the scripted outside *)
(* ===================================================================== *)

(** A geocode request without a location: the key is missing, the
    assertion finds a nil interface. *)
Lemma invokeFunction_assertions_witness :
  @invokeFunction Stub.outside "geocode" Stub.args_weather_strings
    (Stub.start [])
  = (Panic (TypeAssertionError None "string"),
     printed
       (DebugInvoke "geocode"
          (<[ "latitude" := JString "48.85" ]>
             {[ "longitude" := JString "2.35" ]}))
       (Stub.start [])).
Proof.
  exact (@invokeFunction_assertions Stub.outside "geocode"
           Stub.args_weather_strings
           (<[ "latitude" := JString "48.85" ]>
              {[ "longitude" := JString "2.35" ]})
           (Stub.start []) eq_refl).
Defined.

(** Thirteen messages and a backend that asks for a tool: one round, and
    the guard stops the next. *)
Lemma converse_too_deep_at_bound_witness :
  let messages := replicate 13 (Stub.user "again") in
  let st := Stub.start [Stub.reply (Stub.asks "geocode" Stub.args_geocode)] in
  "" = ""
  /\ exists evs,
       trace (snd (@converse Stub.outside messages st)) = trace st ++ evs
       /\ chats evs = 1.
Proof.
  intros messages st.
  apply (@converse_too_deep_at_bound Stub.outside messages st "").
  reflexivity.
Defined.

Lemma converse_answer_witness :
  let messages := [Stub.user "Is it raining in Paris?"] in
  let st :=
    Stub.start [Stub.reply (Stub.answers "No."); Stub.reply (Stub.answers "?")]
  in
  @converse Stub.outside messages st
  = (Ret ("No.", None),
     choices_printed (fst (Stub.reply (Stub.answers "No.")))
       (snd (@chat Stub.outside messages st))).
Proof.
  intros messages st.
  refine (@converse_answer Stub.outside messages st
            (fst (Stub.reply (Stub.answers "No.")))
            (snd (@chat Stub.outside messages st))
            {| Message := Stub.answers "No." |} [] _ _ _ _).
  - simpl. lia.
  - reflexivity.
  - reflexivity.
  - reflexivity.
Defined.

(** The backend asks for [geocode] with an empty payload. *)
Lemma converse_invoke_failed_witness :
  let messages := [Stub.user "Is it raining in Paris?"] in
  let request := Stub.asks "geocode" "" in
  let st := Stub.start [Stub.reply request] in
  @converse Stub.outside messages st
  = (Ret ("",
          Some (errors_New
                  "failed invoke function: unexpected end of JSON input")),
     printed (DebugInvoke "geocode" ∅)
       (choices_printed (fst (Stub.reply request))
          (snd (@chat Stub.outside messages st)))).
Proof.
  intros messages request st.
  refine (@converse_invoke_failed Stub.outside messages st
            (fst (Stub.reply request))
            (snd (@chat Stub.outside messages st))
            {| Message := request |} []
            {| fcName := "geocode"; fcArguments := "" |}
            None (errors_New "unexpected end of JSON input") _ _ _ _ _ _).
  - simpl. lia.
  - reflexivity.
  - reflexivity.
  - reflexivity.
  - reflexivity.
Defined.

Lemma converse_geocode_get_failed_witness :
  let messages := [Stub.user "Is it raining in Paris?"] in
  let request := Stub.asks "geocode" Stub.args_geocode in
  fst (@converse Stub.offline messages
         (@Build_State Stub.offline [Stub.reply request] []))
  = Ret ("", Some (errors_New "failed invoke function: no route to host")).
Proof.
  intros messages request.
  refine (f_equal fst
            (@converse_geocode_get_failed Stub.offline messages
               (@Build_State Stub.offline [Stub.reply request] [])
               (fst (Stub.reply request))
               (snd (@chat Stub.offline messages
                       (@Build_State Stub.offline [Stub.reply request] [])))
               {| Message := request |} [] Stub.args_geocode
               {[ "location" := JString "Paris" ]} "Paris"
               (errors_New "no route to host") [] _ _ _ _ _ _ _)).
  - simpl. lia.
  - reflexivity.
  - reflexivity.
  - reflexivity.
  - reflexivity.
  - reflexivity.
  - reflexivity.
Defined.

Lemma converse_unregistered_round_witness :
  let messages := [Stub.user "Is it raining in Paris?"] in
  let request := Stub.asks "forecast" Stub.args_geocode in
  let st := Stub.start [Stub.reply request; Stub.reply (Stub.answers "No.")] in
  @converse Stub.outside messages st
  = @converse Stub.outside
      (messages
         ++ [request;
             {| Role := "function"; Content := ""; Name := "forecast";
                FunctionCallOf := None |}])
      (printed (DebugInvoke "forecast" {[ "location" := JString "Paris" ]})
         (choices_printed (fst (Stub.reply request))
            (snd (@chat Stub.outside messages st)))).
Proof.
  intros messages request st.
  refine (@converse_unregistered_round Stub.outside messages st
            (fst (Stub.reply request))
            (snd (@chat Stub.outside messages st))
            {| Message := request |} []
            {| fcName := "forecast"; fcArguments := Stub.args_geocode |}
            {[ "location" := JString "Paris" ]} _ _ _ _ _ _ _).
  - simpl. lia.
  - reflexivity.
  - reflexivity.
  - reflexivity.
  - discriminate.
  - discriminate.
  - reflexivity.
Defined.

Lemma main_backend_failure_witness :
  fst (@main Stub.outside ["agent"; "Is"; "it"; "raining?"] (Stub.start []))
  = Fatal "Failed query answer: failed chat: EOF".
Proof.
  refine (f_equal fst
            (proj1 (@main_backend_failure Stub.outside
                      ["agent"; "Is"; "it"; "raining?"] (Stub.start [])
                      {| Choices := [] |} (errors_New "EOF")
                      (snd (@chat Stub.outside
                              [Stub.system
                                 "Only use the functions you have been provided with.";
                               Stub.system "Only answer in 50 words or less.";
                               Stub.user "Is it raining?"]
                              (Stub.start []))) _ _))).
  - simpl. lia.
  - reflexivity.
Defined.

Lemma main_direct_answer_witness :
  fst (@main Stub.outside ["agent"; "Is"; "it"; "raining?"]
         (Stub.start [Stub.reply (Stub.answers "No.")]))
  = Returned ("No." ++ newline).
Proof.
  refine (f_equal fst
            (proj1 (@main_direct_answer Stub.outside
                      ["agent"; "Is"; "it"; "raining?"]
                      (Stub.start [Stub.reply (Stub.answers "No.")])
                      (fst (Stub.reply (Stub.answers "No.")))
                      (snd (@chat Stub.outside
                              [Stub.system
                                 "Only use the functions you have been provided with.";
                               Stub.system "Only answer in 50 words or less.";
                               Stub.user "Is it raining?"]
                              (Stub.start [Stub.reply (Stub.answers "No.")])))
                      {| Message := Stub.answers "No." |} [] _ _ _ _))).
  - simpl. lia.
  - reflexivity.
  - reflexivity.
  - reflexivity.
Defined.

(** The line [fmt.Println] ends with: the one byte 10. *)
Example newline_is_line_feed : list_byte_of_string newline = [x0a].
Proof. reflexivity. Qed.
